(** * Agent control loop of the AI product-manager agent

    A shallow embedding of the Python components given in
    [docs/architecture/geisinger-module-design.md] (orchestrator, executor,
    self-verifier, context budget manager, compaction service, tool
    executor) and in
    [docs/architecture/refined-hitl-interaction-architecture.md]
    (tier classification engine), with the properties the design states
    about them.

    Conventions of the embedding:
    - Python [str] values are [string]; Python [int] values are [Z];
    - a Python [dict] with string keys is a [gmap string _];
    - a call that may raise is a value of [Exception + A]
      ([inl e]: the exception [e] leaves the call; [inr a]: normal return);
    - collaborators whose code is not part of the design documents
      (check functions, planner, tools, security service) are [Variable]s
      of the enclosing [Section]. *)

From Stdlib Require Import ZArith QArith Bool List String Lia.
From Stdlib Require Import Sorted Permutation.
From stdpp Require Import base option list strings gmap.
Import ListNotations.

Local Open Scope string_scope.
Local Open Scope list_scope.

(** ** Exceptions *)

(** The exception classes named in the design. The class declarations are
    not part of the documents; every class is taken as a class of its own
    (no class derives from another one of the list). [BuiltinError] stands
    for an exception of a Python built-in class ([KeyError], [TypeError],
    ...), which cannot derive from a class of the application. *)
Inductive Exception : Type :=
  | ToolExecutionError (msg : string)
  | ToolNotFoundError (msg : string)
  | UnauthorizedError (reason : string)
  | ConsentDeniedError
  | CompactionError (missing_items : list string)
  | ZeroDivisionError
  | MCPError (msg : string)
  | ToolVerificationError (msg : string)
  | BuiltinError (class_name msg : string).

(** [str(e)] *)
Definition str_of_exception (e : Exception) : string :=
  match e with
  | ToolExecutionError msg => msg
  | ToolNotFoundError msg => msg
  | UnauthorizedError reason => reason
  | ConsentDeniedError => ""
  | CompactionError _ => "Critical data lost"
  | ZeroDivisionError => "division by zero"
  | MCPError msg => msg
  | ToolVerificationError msg => msg
  | BuiltinError _ msg => msg
  end.

(** The result of a call that may raise. *)
Definition Raises (A : Type) : Type := (Exception + A)%type.

Definition raise {A : Type} (e : Exception) : Raises A := inl e.
Definition ret {A : Type} (a : A) : Raises A := inr a.

Definition bind_raises {A B : Type} (m : Raises A) (k : A -> Raises B)
  : Raises B :=
  match m with
  | inl e => inl e
  | inr a => k a
  end.

Notation "x <~ m ;; k" := (bind_raises m (fun x => k))
  (at level 100, m at next level, right associativity).

(** ** HITL tiers and the tier classification engine *)

Module Tier.

Inductive HITLTier : Type := TIER_1 | TIER_2 | TIER_3 | TIER_4.

(** The number of a tier: 1 = auto-proceed ... 4 = immediate escalation. *)
Definition level (t : HITLTier) : nat :=
  match t with
  | TIER_1 => 1
  | TIER_2 => 2
  | TIER_3 => 3
  | TIER_4 => 4
  end.

(** The chain of [if]/[elif] of [classify_action], on the three assessed
    attributes. The comparisons are Python string comparisons. *)
Definition determine_tier (impact reversibility data_sensitivity : string)
  : HITLTier :=
  if String.eqb impact "LOW" && String.eqb reversibility "FULL" then
    TIER_1
  else if String.eqb impact "MEDIUM"
          && (String.eqb reversibility "FULL"
              || String.eqb reversibility "PARTIAL") then
    TIER_2
  else if String.eqb impact "HIGH" || String.eqb data_sensitivity "PHI" then
    TIER_3
  else
    TIER_4.

(** The values the three attributes range over. *)
Definition impact_levels : list string := ["LOW"; "MEDIUM"; "HIGH"].
Definition reversibility_levels : list string := ["FULL"; "PARTIAL"; "NONE"].
Definition sensitivity_levels : list string :=
  ["PUBLIC"; "INTERNAL"; "CONFIDENTIAL"; "RESTRICTED"].

(** The decision table as the specification words it: four rows, read
    top-down, the first matching row gives the tier; [None] when no row
    matches. This definition follows the specification, not the code. *)
Definition decision_table (impact reversibility sensitivity : string)
  : option HITLTier :=
  if String.eqb impact "LOW" && String.eqb reversibility "FULL" then
    Some TIER_1
  else if String.eqb impact "MEDIUM"
          && (String.eqb reversibility "FULL"
              || String.eqb reversibility "PARTIAL")
          && negb (String.eqb sensitivity "RESTRICTED") then
    Some TIER_2
  else if String.eqb impact "HIGH" then
    Some TIER_3
  else if String.eqb reversibility "NONE"
          && String.eqb sensitivity "RESTRICTED" then
    Some TIER_4
  else
    None.

Section TierClassificationEngine.

(** [Action] and the verification result are opaque to the engine; the
    three [assess_*] methods are not given in the design. *)
Variable Action : Type.
Variable Verification : Type.
Variable assess_impact : Action -> string.
Variable assess_reversibility : Action -> string.
Variable assess_data_sensitivity : Action -> string.

Definition classify_action (action : Action) (verification : Verification)
  : HITLTier :=
  let impact := assess_impact action in
  let reversibility := assess_reversibility action in
  let data_sensitivity := assess_data_sensitivity action in
  determine_tier impact reversibility data_sensitivity.

(** An action is well formed when its attributes are among the declared
    levels. *)
Definition well_formed (action : Action) : Prop :=
  In (assess_impact action) impact_levels
  /\ In (assess_reversibility action) reversibility_levels
  /\ In (assess_data_sensitivity action) sensitivity_levels.

End TierClassificationEngine.

(** A concrete action type: the triple of its attributes. *)
Record AttrAction : Type := mkAction {
  act_impact : string;
  act_reversibility : string;
  act_data_sensitivity : string
}.

Definition classify_attr (a : AttrAction) : HITLTier :=
  classify_action AttrAction unit
    act_impact act_reversibility act_data_sensitivity a tt.

End Tier.

(** ** Data model of the agent runtime *)

(** [Dict[str, Any]] of tool parameters; the values are kept as text. *)
Abbreviation Parameters := (gmap string string).

Record PlanStep : Type := mkPlanStep {
  tool_id : string;
  parameters : Parameters;
  critical : bool;
  parallel_safe : bool
}.

(** [plan.has_more_steps] and [plan.requirements] are attributes the
    verifier reads; the [Plan] class itself is not in the documents. *)
Record Plan : Type := mkPlan {
  steps : list PlanStep;
  rationale : string;
  requirements : list string;
  has_more_steps : bool;
  iteration : Z
}.

Record ToolResult : Type := mkToolResult {
  tr_status : string;
  tr_data : option string;
  tr_error : option string;
  tr_tool_id : string;
  tr_duration : option Z
}.

(** A [StepResult]; a keyword the constructor call leaves out is [None]
    (or [false] for the [failure] flag). *)
Record StepResult : Type := mkStepResult {
  sr_step : PlanStep;
  sr_status : string;
  sr_output : option ToolResult;
  sr_duration : option Z;
  sr_error : option string;
  sr_failure : bool
}.

Record ExecutionResult (Output : Type) : Type := mkExecutionResult {
  er_steps : list StepResult;
  er_status : string;
  er_failure_reason : option string;
  er_output : option Output
}.
Arguments mkExecutionResult {Output} _ _ _ _.
Arguments er_steps {Output} _.
Arguments er_status {Output} _.
Arguments er_failure_reason {Output} _.
Arguments er_output {Output} _.

(** ** Executor *)

Section Executor.

Variable ExecutionContext : Type.
Variable Tool : Type.
Variable Output : Type.

(** [context.add_step_result(step_result)] mutates the context. *)
Variable add_step_result : ExecutionContext -> StepResult -> ExecutionContext.
(** [self.tool_framework.get_tool(step.tool_id)] *)
Variable get_tool : string -> Raises Tool.
(** [tool.execute(parameters=..., context=...)] *)
Variable tool_execute :
  Tool -> Parameters -> ExecutionContext -> Raises ToolResult.
(** [self._execute_parallel(step, context)], not given in the design. *)
Variable execute_parallel : PlanStep -> ExecutionContext -> Raises StepResult.
(** [self._aggregate_outputs(results)] *)
Variable aggregate_outputs : list StepResult -> Output.

(** [except ToolExecutionError as e]: the handler takes an exception of
    that class and lets every other one pass. *)
Definition is_ToolExecutionError (e : Exception) : bool :=
  match e with
  | ToolExecutionError _ => true
  | _ => false
  end.

(** [Executor._execute_sequential]. The tool lookup stands before the
    [try]; only the tool call is inside it. *)
Definition execute_sequential (step : PlanStep) (context : ExecutionContext)
  : Raises StepResult :=
  match get_tool (tool_id step) with
  | inl e => raise e
  | inr tool =>
      match tool_execute tool (parameters step) context with
      | inr tool_result =>
          ret {| sr_step := step;
                 sr_status := "SUCCESS";
                 sr_output := Some tool_result;
                 sr_duration := tr_duration tool_result;
                 sr_error := None;
                 sr_failure := false |}
      | inl e =>
          if is_ToolExecutionError e then
            ret {| sr_step := step;
                   sr_status := "FAILED";
                   sr_output := None;
                   sr_duration := None;
                   sr_error := Some (str_of_exception e);
                   sr_failure := true |}
          else raise e
      end
  end.

Definition run_step (step : PlanStep) (context : ExecutionContext)
  : Raises StepResult :=
  if parallel_safe step then execute_parallel step context
  else execute_sequential step context.

(** The [for step in plan.steps] loop of [execute_plan], with the list
    [results] built so far and the context as it stands. The final
    context is returned next to the result, as the caller goes on with
    the mutated object. *)
Fixpoint execute_steps (todo : list PlanStep) (results : list StepResult)
    (context : ExecutionContext)
  : Raises (ExecutionResult Output * ExecutionContext) :=
  match todo with
  | [] =>
      ret ({| er_steps := results;
              er_status := "SUCCESS";
              er_failure_reason := None;
              er_output := Some (aggregate_outputs results) |}, context)
  | step :: rest =>
      match run_step step context with
      | inl e => raise e
      | inr step_result =>
          let results := results ++ [step_result] in
          let context := add_step_result context step_result in
          if sr_failure step_result && critical step then
            ret ({| er_steps := results;
                    er_status := "FAILED";
                    er_failure_reason := sr_error step_result;
                    er_output := None |}, context)
          else execute_steps rest results context
      end
  end.

(** [Executor.execute_plan] *)
Definition execute_plan (plan : Plan) (context : ExecutionContext)
  : Raises (ExecutionResult Output * ExecutionContext) :=
  execute_steps (steps plan) [] context.

(** The conversion asked of the step boundary: whatever the tool call
    of a step raises, the step ends as a [StepResult] of status
    ["FAILED"]. *)
Definition converts_every_exception : Prop :=
  forall (step : PlanStep) (context : ExecutionContext) (tool : Tool)
         (e : Exception),
    get_tool (tool_id step) = ret tool ->
    tool_execute tool (parameters step) context = raise e ->
    exists step_result,
      execute_sequential step context = ret step_result
      /\ sr_status step_result = "FAILED".

End Executor.

(** ** Self-verifier *)

(** The result of one check. *)
Record Check : Type := mkCheck {
  passed : bool;
  critical_check : bool;
  message : string;
  score : Q
}.

(** Modelled from the spec: the [Check] class is not in the documents; the
    specification reads a failed check as [check.passed == false]. *)
Definition failed (check : Check) : bool := negb (passed check).

Record VerificationResult : Type := mkVerificationResult {
  vr_passed : bool;
  vr_checks : list Check;
  vr_complete : bool;
  vr_should_escalate : bool;
  vr_confidence_score : Q;
  vr_issues : list string
}.

Section SelfVerifier.

Variable ExecutionContext : Type.
Variable Output : Type.

(** The six check methods; each reads the execution result and what it
    needs of the plan and of the context. *)
Variable check_policy_compliance :
  ExecutionResult Output -> ExecutionContext -> Check.
Variable check_completeness :
  ExecutionResult Output -> list string -> Check.
Variable check_consistency :
  ExecutionResult Output -> ExecutionContext -> Check.
Variable check_quality :
  ExecutionResult Output -> ExecutionContext -> Check.
Variable assess_confidence :
  ExecutionResult Output -> ExecutionContext -> Check.
Variable check_safety :
  ExecutionResult Output -> ExecutionContext -> Check.
Variable extract_issues : list Check -> list string.

(** The list [checks] as [verify] appends to it, in this order. *)
Definition run_checks (result : ExecutionResult Output) (plan : Plan)
    (context : ExecutionContext) : list Check :=
  let checks := [] in
  let policy_check := check_policy_compliance result context in
  let checks := checks ++ [policy_check] in
  let completeness_check := check_completeness result (requirements plan) in
  let checks := checks ++ [completeness_check] in
  let consistency_check := check_consistency result context in
  let checks := checks ++ [consistency_check] in
  let quality_check := check_quality result context in
  let checks := checks ++ [quality_check] in
  let confidence_check := assess_confidence result context in
  let checks := checks ++ [confidence_check] in
  let safety_check := check_safety result context in
  checks ++ [safety_check].

(** [SelfVerifier.verify] *)
Definition verify (result : ExecutionResult Output) (plan : Plan)
    (context : ExecutionContext) : VerificationResult :=
  let checks := run_checks result plan context in
  let confidence_check := assess_confidence result context in
  let all_passed := forallb passed checks in
  let critical_failed :=
    existsb (fun check => failed check && critical_check check) checks in
  {| vr_passed := all_passed;
     vr_checks := checks;
     vr_complete := all_passed && negb (has_more_steps plan);
     vr_should_escalate := critical_failed;
     vr_confidence_score := score confidence_check;
     vr_issues := extract_issues checks |}.

End SelfVerifier.

(** ** Orchestrator *)

(** [AgentResponse], the dataclass of the output interface: eight fields,
    none of them with a default value. *)
Record AgentResponse (Output Trace : Type) : Type := mkAgentResponse {
  ar_task_id : string;
  ar_status : string;
  ar_result : option (ExecutionResult Output);
  ar_verification : VerificationResult;
  ar_trace : Trace;
  ar_recommendations : list string;
  ar_requires_approval : bool;
  ar_hitl_tier : Tier.HITLTier
}.
Arguments mkAgentResponse {Output Trace} _ _ _ _ _ _ _ _.
Arguments ar_task_id {Output Trace} _.
Arguments ar_status {Output Trace} _.
Arguments ar_result {Output Trace} _.
Arguments ar_verification {Output Trace} _.
Arguments ar_trace {Output Trace} _.
Arguments ar_recommendations {Output Trace} _.
Arguments ar_requires_approval {Output Trace} _.
Arguments ar_hitl_tier {Output Trace} _.

(** The keyword arguments of a call [AgentResponse(...)]: for each field
    the value passed, or [None] when the call does not pass the keyword;
    and the value passed as [reason], a keyword the orchestrator uses and
    the dataclass does not declare. *)
Record AgentResponseKeywords (Output Trace : Type) : Type := mkKeywords {
  kw_task_id : option string;
  kw_status : option string;
  kw_result : option (option (ExecutionResult Output));
  kw_verification : option VerificationResult;
  kw_trace : option Trace;
  kw_recommendations : option (list string);
  kw_requires_approval : option bool;
  kw_hitl_tier : option Tier.HITLTier;
  kw_reason : option string
}.
Arguments mkKeywords {Output Trace} _ _ _ _ _ _ _ _ _.
Arguments kw_task_id {Output Trace} _.
Arguments kw_status {Output Trace} _.
Arguments kw_result {Output Trace} _.
Arguments kw_verification {Output Trace} _.
Arguments kw_trace {Output Trace} _.
Arguments kw_recommendations {Output Trace} _.
Arguments kw_requires_approval {Output Trace} _.
Arguments kw_hitl_tier {Output Trace} _.
Arguments kw_reason {Output Trace} _.

(** The names of the fields a call does not pass. *)
Definition missing_fields {Output Trace : Type}
    (kw : AgentResponseKeywords Output Trace) : list string :=
  (match kw_task_id kw with Some _ => [] | None => ["task_id"] end)
  ++ (match kw_status kw with Some _ => [] | None => ["status"] end)
  ++ (match kw_result kw with Some _ => [] | None => ["result"] end)
  ++ (match kw_verification kw with Some _ => [] | None => ["verification"] end)
  ++ (match kw_trace kw with Some _ => [] | None => ["trace"] end)
  ++ (match kw_recommendations kw with
      | Some _ => [] | None => ["recommendations"] end)
  ++ (match kw_requires_approval kw with
      | Some _ => [] | None => ["requires_approval"] end)
  ++ (match kw_hitl_tier kw with Some _ => [] | None => ["hitl_tier"] end).

(** The call [AgentResponse(...)] with keyword arguments, as the
    [__init__] a dataclass generates behaves: a keyword that is not a
    field raises [TypeError], and so does a field without a value, none
    of the fields having a default. The message names the keyword or the
    missing fields; its wording is the interpreter's and is not relied
    on. *)
Definition new_agent_response {Output Trace : Type}
    (kw : AgentResponseKeywords Output Trace)
  : Raises (AgentResponse Output Trace) :=
  match kw_reason kw with
  | Some _ =>
      raise (BuiltinError "TypeError"
               "__init__() got an unexpected keyword argument 'reason'")
  | None =>
      match kw_task_id kw, kw_status kw, kw_result kw, kw_verification kw,
            kw_trace kw, kw_recommendations kw, kw_requires_approval kw,
            kw_hitl_tier kw with
      | Some task_id, Some status, Some result, Some verification,
        Some trace, Some recommendations, Some requires_approval,
        Some hitl_tier =>
          ret {| ar_task_id := task_id;
                 ar_status := status;
                 ar_result := result;
                 ar_verification := verification;
                 ar_trace := trace;
                 ar_recommendations := recommendations;
                 ar_requires_approval := requires_approval;
                 ar_hitl_tier := hitl_tier |}
      | _, _, _, _, _, _, _, _ =>
          raise (BuiltinError "TypeError"
                   ("__init__() missing required arguments: "
                    ++ String.concat ", " (missing_fields kw))%string)
      end
  end.

Definition max_iterations : nat := 10.

Section Orchestrator.

Variable Task : Type.
Variable ExecutionContext : Type.
Variable GatheredContext : Type.
Variable Output : Type.
Variable Trace : Type.

(** Lines before the loop: the blueprints are loaded and the context is
    built from them. *)
Variable initial_context : Task -> ExecutionContext.
Variable gather_context : ExecutionContext -> GatheredContext.
(** [Planner._create_initial_plan] and [Planner._adapt_plan] *)
Variable create_initial_plan : Task -> GatheredContext -> Plan.
Variable adapt_plan : Task -> GatheredContext -> Plan.
(** [self.executor.execute_plan] and [self.verifier.verify] *)
Variable executor_execute_plan :
  Plan -> ExecutionContext ->
  Raises (ExecutionResult Output * ExecutionContext).
Variable verifier_verify :
  ExecutionResult Output -> Plan -> ExecutionContext -> VerificationResult.
Variable escalation_reason : VerificationResult -> string.
Variable update_from_verification :
  ExecutionContext -> VerificationResult -> ExecutionContext.
Variable trace : ExecutionContext -> Trace.

(** [Planner.create_plan] *)
Definition create_plan (task : Task) (context : GatheredContext)
    (iteration : nat) : Plan :=
  if Nat.eqb iteration 0 then create_initial_plan task context
  else adapt_plan task context.

(** Gather, plan, act and verify of one iteration. *)
Definition run_iteration (task : Task) (context : ExecutionContext)
    (iteration : nat)
  : Raises (ExecutionResult Output * VerificationResult * ExecutionContext) :=
  let gathered_context := gather_context context in
  let plan := create_plan task gathered_context iteration in
  match executor_execute_plan plan context with
  | inl e => raise e
  | inr (execution_result, context) =>
      let verification := verifier_verify execution_result plan context in
      ret (execution_result, verification, context)
  end.

(** The keyword arguments of the three [return AgentResponse(...)] of
    [execute_task]. *)
Definition complete_keywords (execution_result : ExecutionResult Output)
    (verification : VerificationResult) (context : ExecutionContext)
  : AgentResponseKeywords Output Trace :=
  {| kw_task_id := None;
     kw_status := None;
     kw_result := Some (Some execution_result);
     kw_verification := Some verification;
     kw_trace := Some (trace context);
     kw_recommendations := None;
     kw_requires_approval := None;
     kw_hitl_tier := None;
     kw_reason := None |}.

Definition escalated_keywords (verification : VerificationResult)
    (context : ExecutionContext) : AgentResponseKeywords Output Trace :=
  {| kw_task_id := None;
     kw_status := Some "ESCALATED";
     kw_result := None;
     kw_verification := None;
     kw_trace := Some (trace context);
     kw_recommendations := None;
     kw_requires_approval := None;
     kw_hitl_tier := None;
     kw_reason := Some (escalation_reason verification) |}.

Definition max_iterations_keywords (context : ExecutionContext)
  : AgentResponseKeywords Output Trace :=
  {| kw_task_id := None;
     kw_status := Some "MAX_ITERATIONS";
     kw_result := None;
     kw_verification := None;
     kw_trace := Some (trace context);
     kw_recommendations := None;
     kw_requires_approval := None;
     kw_hitl_tier := None;
     kw_reason := None |}.

(** The [for iteration in range(max_iterations)] loop of [execute_task]
    over the iterations still to run, and the [return] after it. *)
Fixpoint agent_loop (task : Task) (iterations : list nat)
    (context : ExecutionContext) : Raises (AgentResponse Output Trace) :=
  match iterations with
  | [] => new_agent_response (max_iterations_keywords context)
  | iteration :: rest =>
      match run_iteration task context iteration with
      | inl e => raise e
      | inr (execution_result, verification, context) =>
          if vr_complete verification then
            new_agent_response
              (complete_keywords execution_result verification context)
          else if vr_should_escalate verification then
            new_agent_response (escalated_keywords verification context)
          else
            agent_loop task rest
              (update_from_verification context verification)
      end
  end.

(** [AgentOrchestrator.execute_task] *)
Definition execute_task (task : Task) : Raises (AgentResponse Output Trace) :=
  agent_loop task (seq 0 max_iterations) (initial_context task).

(** The contexts of a run whose iterations all end with a verification
    that is neither complete nor escalating: [continues task its c c']
    when the iterations [its], started in context [c], all go on to the
    next one and leave the context [c']. *)
Inductive continues (task : Task)
  : list nat -> ExecutionContext -> ExecutionContext -> Prop :=
| continues_nil : forall context, continues task [] context context
| continues_cons :
    forall iteration rest context execution_result verification context1
           context',
      run_iteration task context iteration
        = ret (execution_result, verification, context1) ->
      vr_complete verification = false ->
      vr_should_escalate verification = false ->
      continues task rest
        (update_from_verification context1 verification) context' ->
      continues task (iteration :: rest) context context'.

End Orchestrator.

(** ** Context budget manager *)

Module Budget.

Record ContextBudgetManager : Type := mkManager {
  total_budget : Z;
  allocations : gmap string Z;
  used : Z
}.

(** [ContextBudgetManager.__init__] *)
Definition init : ContextBudgetManager :=
  {| total_budget := 200000;
     allocations :=
       list_to_map
         [("meta_blueprint", 2000%Z); ("working_memory", 50000%Z);
          ("tool_results", 30000%Z); ("blueprints", 20000%Z);
          ("reasoning", 40000%Z); ("output", 10000%Z);
          ("safety", 8000%Z); ("dynamic", 40000%Z)];
     used := 0 |}.

Record BudgetCheckResult : Type := mkBudgetCheckResult {
  status : string;
  action : string
}.

(** [n > total * 0.8]. Python compares the [int] with the [float]
    exactly, and for the budget of the design the product is exact
    ([200000 * 0.8] is the float [160000.0]); the comparison is written on
    integers as [10 n > 8 total]. The constructor sets the total budget
    to 200000 and no method changes it; for another total the float
    product may be rounded, and the properties of [check_budget] that
    depend on this test are stated for the total of the constructor. *)
Definition above_80_percent (n total : Z) : bool := (8 * total <? 10 * n)%Z.

(** [ContextBudgetManager.check_budget]. It reads the manager and has no
    effect on it; [available] is computed and not used. *)
Definition check_budget (self : ContextBudgetManager) (category : string)
    (requested : Z) : BudgetCheckResult :=
  let allocated := default 0%Z (allocations self !! category) in
  let available := (total_budget self - used self)%Z in
  if (allocated <? requested)%Z then
    {| status := "OVER_ALLOCATION"; action := "TRIGGER_COMPACTION" |}
  else if above_80_percent (used self + requested) (total_budget self) then
    {| status := "WARNING"; action := "APPROACHING_LIMIT" |}
  else
    {| status := "APPROVED"; action := "PROCEED" |}.

(** [ContextBudgetManager.allocate] *)
Definition allocate (self : ContextBudgetManager) (category : string)
    (amount : Z) : ContextBudgetManager :=
  {| total_budget := total_budget self;
     allocations := allocations self;
     used := (used self + amount)%Z |}.

(** [ContextBudgetManager.release] *)
Definition release (self : ContextBudgetManager) (category : string)
    (amount : Z) : ContextBudgetManager :=
  {| total_budget := total_budget self;
     allocations := allocations self;
     used := Z.max 0 (used self - amount) |}.

(** A call of one of the two methods the budget is driven by. *)
Inductive Operation : Type :=
  | CheckBudget (category : string) (requested : Z)
  | Allocate (category : string) (amount : Z).

(** A sequence of calls on one manager: the manager it leaves and the
    results of the [check_budget] calls, in order. *)
Fixpoint run (ops : list Operation) (self : ContextBudgetManager)
  : ContextBudgetManager * list BudgetCheckResult :=
  match ops with
  | [] => (self, [])
  | CheckBudget category requested :: rest =>
      let result := check_budget self category requested in
      let '(self', results) := run rest self in
      (self', result :: results)
  | Allocate category amount :: rest =>
      run rest (allocate self category amount)
  end.

(** A caller that asks before every write: [check_budget] and then
    [allocate] of the same amount, five times over. *)
Definition five_checked_writes : list Operation :=
  concat (repeat [CheckBudget "working_memory" 50000;
                  Allocate "working_memory" 50000] 5).

(** The property asked of the manager: whatever the calls, the usage
    stays at or below the ceiling. *)
Definition usage_within_ceiling : Prop :=
  forall ops : list Operation,
    (used (fst (run ops init)) <= total_budget (fst (run ops init)))%Z.

End Budget.

(** ** Working memory and compaction *)

Module Memory.

Record CachedResult : Type := mkCachedResult {
  cached_result : ToolResult;
  timestamp : Z;
  ttl : Z
}.

(** [WorkingMemory]; turns, conclusions and errors are kept as text. *)
Record WorkingMemory : Type := mkWorkingMemory {
  max_tokens : Z;
  conversation_history : list string;
  task_state : gmap string string;
  tool_results : gmap string CachedResult;
  temporary_conclusions : list string;
  error_history : list string
}.

(** [WorkingMemory(max_tokens)] *)
Definition new_working_memory (max_tokens : Z) : WorkingMemory :=
  {| max_tokens := max_tokens;
     conversation_history := [];
     task_state := ∅;
     tool_results := ∅;
     temporary_conclusions := [];
     error_history := [] |}.

Record CompactMemory : Type := mkCompactMemory {
  critical_data : list string;
  conversation_summary : string;
  tool_summary : string;
  original_size : Z;
  compressed_size : Z
}.

Record CompactionResult : Type := mkCompactionResult {
  compact_memory : CompactMemory;
  compression_ratio : Q
}.

Record DataLossVerification : Type := mkDataLossVerification {
  dl_passed : bool;
  dl_missing_items : list string
}.

Section CompactionService.

(** The token counters of [WorkingMemory.count_tokens]. *)
Variable count_conversation_tokens : list string -> Z.
Variable count_task_state_tokens : gmap string string -> Z.
Variable count_tool_results_tokens : gmap string CachedResult -> Z.
Variable count_conclusions_tokens : list string -> Z.

(** [WorkingMemory.count_tokens] *)
Definition count_tokens (self : WorkingMemory) : Z :=
  (count_conversation_tokens (conversation_history self)
   + count_task_state_tokens (task_state self)
   + count_tool_results_tokens (tool_results self)
   + count_conclusions_tokens (temporary_conclusions self))%Z.

(** The items of a working memory that are designated critical
    (safety-relevant facts, open decisions, pending approvals). *)
Variable critical_items : WorkingMemory -> list string.

(** The private helpers of the service. *)
Variable extract_critical_data : WorkingMemory -> list string.
Variable summarize_conversation : list string -> Z -> string.
Variable compress_tool_results : gmap string CachedResult -> string.
Variable count_compact_tokens : list string -> string -> string -> Z.

Definition contains (memory : CompactMemory) (item : string) : bool :=
  existsb (String.eqb item) (critical_data memory).

(** Modelled from the spec: [_verify_no_data_loss] is not in the
    documents. The specification has it verify, after the compaction,
    that no critical item was lost: it passes when every critical item
    of the working memory is in the compact memory, and reports the
    missing ones otherwise. *)
Definition verify_no_data_loss (working_memory : WorkingMemory)
    (memory : CompactMemory) : DataLossVerification :=
  let missing :=
    List.filter (fun item => negb (contains memory item))
                (critical_items working_memory) in
  {| dl_passed := match missing with [] => true | _ => false end;
     dl_missing_items := missing |}.

(** The [CompactMemory] the service builds before it verifies it. *)
Definition build_compact_memory (working_memory : WorkingMemory)
  : CompactMemory :=
  let critical_data := extract_critical_data working_memory in
  let conversation_summary :=
    summarize_conversation (conversation_history working_memory) 10 in
  let tool_summary := compress_tool_results (tool_results working_memory) in
  {| critical_data := critical_data;
     conversation_summary := conversation_summary;
     tool_summary := tool_summary;
     original_size := count_tokens working_memory;
     compressed_size :=
       count_compact_tokens critical_data conversation_summary
                            tool_summary |}.

(** [a / b] on Python numbers. *)
Definition true_division (a b : Z) : Raises Q :=
  if (b =? 0)%Z then raise ZeroDivisionError
  else ret (inject_Z a / inject_Z b)%Q.

(** [CompactionService.compact_working_memory] *)
Definition compact_working_memory (working_memory : WorkingMemory)
    (target_tokens : Z) : Raises CompactionResult :=
  let memory := build_compact_memory working_memory in
  let verification := verify_no_data_loss working_memory memory in
  if negb (dl_passed verification) then
    raise (CompactionError (dl_missing_items verification))
  else
    ratio <~ true_division (original_size memory) (compressed_size memory) ;;
    ret {| compact_memory := memory; compression_ratio := ratio |}.

End CompactionService.

End Memory.

(** ** Tool executor *)

Module ToolExec.

(** The attributes of a tool specification that [ToolExecutor.execute]
    reads. [cacheable] and [cache_ttl] are read in step 7 and are not
    among the fields the [ToolSpecification] dataclass of the interface
    lists; they are taken as present. *)
Record ToolSpecification : Type := mkToolSpecification {
  spec_id : string;
  mcp_endpoint : string;
  parameter_schema : string;
  requires_consent : bool;
  sla_timeout : Z;
  cacheable : bool;
  cache_ttl : Z
}.

Record AuthResult : Type := mkAuthResult {
  authorized : bool;
  auth_reason : string;
  credentials : string
}.

Record Consent : Type := mkConsent { granted : bool }.

(** What the executor does to its collaborators, in the order it does
    it. The log is not in the Python code; it records the calls so that
    their order can be stated. *)
Inductive Event : Type :=
  | AuthorizationChecked
  | ConsentAsked
  | CacheRead (key : string)
  | ToolCalled (endpoint : string)
  | CacheWritten (key : string).

(** The state a call of [execute] works on: the result cache of the
    executor and the log of its calls. *)
Record ExecutorState : Type := mkExecutorState {
  result_cache : gmap string ToolResult;
  log : list Event
}.

Definition record_event (ev : Event) (st : ExecutorState) : ExecutorState :=
  {| result_cache := result_cache st; log := log st ++ [ev] |}.

(** [self.result_cache.set(key, value, ttl=...)]. The cache is a map
    without expiry: the [ttl] is not kept, and nothing is stated about
    how long an entry stays. *)
Definition cache_set (key : string) (value : ToolResult) (st : ExecutorState)
  : ExecutorState :=
  {| result_cache := <[key := value]> (result_cache st);
     log := log st ++ [CacheWritten key] |}.

(** An event that touches the cache or the tool. *)
Definition cache_or_tool_event (ev : Event) : bool :=
  match ev with
  | CacheRead _ | ToolCalled _ | CacheWritten _ => true
  | AuthorizationChecked | ConsentAsked => false
  end.

Section ToolExecutor.

Variable User : Type.
Variable MCPResult : Type.

(** [self.security.check_authorization] and [self.security.get_consent] *)
Variable check_authorization :
  User -> ToolSpecification -> string -> AuthResult.
Variable get_consent : User -> ToolSpecification -> Parameters -> Consent.
(** [self._validate_parameters] and [self._generate_cache_key] *)
Variable validate_parameters : Parameters -> string -> Raises Parameters.
Variable generate_cache_key : ToolSpecification -> Parameters -> string.
(** [self.mcp.call_tool(endpoint, parameters, timeout, credentials)] *)
Variable call_tool : string -> Parameters -> Z -> string -> Raises MCPResult.
(** [self._verify_result] *)
Variable verify_result : MCPResult -> ToolSpecification -> Raises ToolResult.

Definition is_MCPError (e : Exception) : bool :=
  match e with
  | MCPError _ => true
  | _ => false
  end.

(** Steps 5 to 7, the body of the [try]. *)
Definition call_and_cache (tool_spec : ToolSpecification)
    (validated_params : Parameters) (auth_result : AuthResult)
    (cache_key : string) (st : ExecutorState)
  : Raises ToolResult * ExecutorState :=
  let st := record_event (ToolCalled (mcp_endpoint tool_spec)) st in
  match call_tool (mcp_endpoint tool_spec) validated_params
                  (sla_timeout tool_spec) (credentials auth_result) with
  | inl e => (raise e, st)
  | inr mcp_result =>
      match verify_result mcp_result tool_spec with
      | inl e => (raise e, st)
      | inr verified_result =>
          let st :=
            if cacheable tool_spec
            then cache_set cache_key verified_result st
            else st in
          (ret verified_result, st)
      end
  end.

(** [ToolExecutor.execute] *)
Definition execute (tool_spec : ToolSpecification)
    (parameters : Parameters) (user : User) (st : ExecutorState)
  : Raises ToolResult * ExecutorState :=
  (* 1. Authorization check *)
  let st := record_event AuthorizationChecked st in
  let auth_result := check_authorization user tool_spec "execute" in
  if negb (authorized auth_result) then
    (raise (UnauthorizedError (auth_reason auth_result)), st)
  else
    (* 2. Consent check (if required) *)
    let consent_step :=
      if requires_consent tool_spec then
        (negb (granted (get_consent user tool_spec parameters)),
         record_event ConsentAsked st)
      else (false, st) in
    let '(denied, st) := consent_step in
    if denied then (raise ConsentDeniedError, st)
    else
      (* 3. Parameter validation *)
      match validate_parameters parameters (parameter_schema tool_spec) with
      | inl e => (raise e, st)
      | inr validated_params =>
          (* 4. Check cache *)
          let cache_key := generate_cache_key tool_spec validated_params in
          let st := record_event (CacheRead cache_key) st in
          match result_cache st !! cache_key with
          | Some cached => (ret cached, st)
          | None =>
              (* 5.-7. Execute via MCP, verify, cache *)
              match call_and_cache tool_spec validated_params auth_result
                                   cache_key st with
              | (inl e, st) =>
                  if is_MCPError e then
                    (ret {| tr_status := "FAILED";
                            tr_data := None;
                            tr_error := Some (str_of_exception e);
                            tr_tool_id := spec_id tool_spec;
                            tr_duration := None |}, st)
                  else (raise e, st)
              | (inr result, st) => (ret result, st)
              end
          end
      end.

End ToolExecutor.

End ToolExec.

(** ** A small instance of the collaborators

    Tools, checks and a planner simple enough to run the loop on: the tool
    ["flaky"] raises [ToolExecutionError], the tool ["broken"] raises a
    [KeyError], the tool id ["unknown"] is not registered, every other
    tool succeeds. The context is the list of the step results added to
    it, and the trace lists the tools of these results. *)

Module Demo.

Definition Context : Type := list StepResult.
Definition Output : Type := list string.

Definition add_step_result (context : Context) (r : StepResult) : Context :=
  context ++ [r].

Definition get_tool (id : string) : Raises string :=
  if String.eqb id "unknown"
  then raise (ToolNotFoundError "Tool unknown not found")
  else ret id.

Definition tool_execute (tool : string) (params : Parameters)
    (context : Context) : Raises ToolResult :=
  if String.eqb tool "flaky" then raise (ToolExecutionError "tool failed")
  else if String.eqb tool "broken" then raise (BuiltinError "KeyError" "id")
  else ret {| tr_status := "SUCCESS";
              tr_data := Some tool;
              tr_error := None;
              tr_tool_id := tool;
              tr_duration := Some 1%Z |}.

Definition aggregate_outputs (results : list StepResult) : Output :=
  map sr_status results.

Definition sequential : PlanStep -> Context -> Raises StepResult :=
  execute_sequential Context string get_tool tool_execute.

Definition execute_plan
  : Plan -> Context -> Raises (ExecutionResult Output * Context) :=
  execute_plan Context string Output add_step_result get_tool tool_execute
    sequential aggregate_outputs.

Definition ok_check : Check :=
  {| passed := true; critical_check := false; message := "ok"; score := 1 |}.

(** The completeness check passes when the execution succeeded; its
    failure is not critical. *)
Definition check_completeness (result : ExecutionResult Output)
    (requirements : list string) : Check :=
  {| passed := String.eqb (er_status result) "SUCCESS";
     critical_check := false;
     message := "all steps done";
     score := 1 |}.

Definition verify
  : ExecutionResult Output -> Plan -> Context -> VerificationResult :=
  verify Context Output
    (fun _ _ => ok_check) check_completeness (fun _ _ => ok_check)
    (fun _ _ => ok_check) (fun _ _ => ok_check) (fun _ _ => ok_check)
    (map message).

(** A task is the list of the tools to call, with their critical flag. *)
Definition Task : Type := list (string * bool).

Definition plan_of (task : Task) (gathered : Context) : Plan :=
  {| steps :=
       map (fun '(tool, crit) =>
              {| tool_id := tool; parameters := ∅;
                 critical := crit; parallel_safe := false |}) task;
     rationale := "call the tools in order";
     requirements := [];
     has_more_steps := false;
     iteration := 0 |}.

Definition trace (context : Context) : list string :=
  map (fun r => tool_id (sr_step r)) context.

Definition execute_task (task : Task)
  : Raises (AgentResponse Output (list string)) :=
  execute_task Task Context Context Output (list string)
    (fun _ => []) (fun context => context) plan_of plan_of
    execute_plan verify (fun _ => "critical check failed")
    (fun context _ => context) trace task.

(** Token counts of the compaction instance: one token per character. *)
Definition text_tokens (l : list string) : Z :=
  fold_right (fun s n => (Z.of_nat (String.length s) + n)%Z) 0%Z l.

(** The critical items are the recorded errors; the extraction keeps
    them, the summaries of this instance are empty. *)
Definition compact (working_memory : Memory.WorkingMemory) (target : Z)
  : Raises Memory.CompactionResult :=
  Memory.compact_working_memory
    text_tokens (fun _ => 0%Z) (fun _ => 0%Z) text_tokens
    Memory.error_history Memory.error_history
    (fun _ _ => "") (fun _ => "")
    (fun critical summary tools =>
       (text_tokens critical + text_tokens [summary; tools])%Z)
    working_memory target.

(** The security service of the executor instance: only ["alice"] is
    authorized, nobody consents. *)
Definition check_authorization (user : string)
    (tool_spec : ToolExec.ToolSpecification) (action : string)
  : ToolExec.AuthResult :=
  {| ToolExec.authorized := String.eqb user "alice";
     ToolExec.auth_reason := "not allowed";
     ToolExec.credentials := "token" |}.

Definition tool_executor_execute
  : ToolExec.ToolSpecification -> Parameters -> string ->
    ToolExec.ExecutorState -> Raises ToolResult * ToolExec.ExecutorState :=
  ToolExec.execute string string
    check_authorization
    (fun _ _ _ => {| ToolExec.granted := false |})
    (fun params _ => ret params)
    (fun tool_spec _ => ToolExec.spec_id tool_spec)
    (fun endpoint _ _ _ => ret endpoint)
    (fun mcp_result tool_spec =>
       ret {| tr_status := "SUCCESS"; tr_data := Some mcp_result;
              tr_error := None; tr_tool_id := ToolExec.spec_id tool_spec;
              tr_duration := None |}).

Definition fetch_spec (consent : bool) : ToolExec.ToolSpecification :=
  {| ToolExec.spec_id := "fetch";
     ToolExec.mcp_endpoint := "mcp://fetch";
     ToolExec.parameter_schema := "{}";
     ToolExec.requires_consent := consent;
     ToolExec.sla_timeout := 1000;
     ToolExec.cacheable := true;
     ToolExec.cache_ttl := 300 |}.

Definition cached_fetch : ToolResult :=
  {| tr_status := "SUCCESS"; tr_data := Some "cached"; tr_error := None;
     tr_tool_id := "fetch"; tr_duration := None |}.

(** An executor whose cache already holds a result for ["fetch"]. *)
Definition warm_state : ToolExec.ExecutorState :=
  {| ToolExec.result_cache := {[ "fetch" := cached_fetch ]};
     ToolExec.log := [] |}.

End Demo.

(** ** Tool executor: the checks before the cache

    The calls a permitted call of [ToolExecutor.execute] makes before it
    looks at the cache. *)
Definition checks_made (tool_spec : ToolExec.ToolSpecification)
  : list ToolExec.Event :=
  ToolExec.AuthorizationChecked
  :: (if ToolExec.requires_consent tool_spec
      then [ToolExec.ConsentAsked] else []).

(** ** Approval policy and approval conversation

    [ApprovalPolicyManager] and [ApprovalInteractionModule] of
    [refined-hitl-interaction-architecture.md]. *)

Module Approval.

(** [==] on two tiers of the enumeration. *)
Definition tier_eqb (a b : Tier.HITLTier) : bool :=
  match a, b with
  | Tier.TIER_1, Tier.TIER_1 | Tier.TIER_2, Tier.TIER_2
  | Tier.TIER_3, Tier.TIER_3 | Tier.TIER_4, Tier.TIER_4 => true
  | _, _ => false
  end.

Record ApprovalRequirements : Type := mkApprovalRequirements {
  req_tier : Tier.HITLTier;
  req_timeout : Z;
  required_role : string;
  can_modify : bool;
  emergency_override : bool
}.

(** [ApprovalPolicyManager.should_request_approval] *)
Definition should_request_approval (tier : Tier.HITLTier) : bool :=
  existsb (tier_eqb tier) [Tier.TIER_3; Tier.TIER_4].

Section ApprovalPolicyManager.

Variable Action : Type.
(** [self._get_timeout] and [self._get_required_approver] *)
Variable get_timeout : Tier.HITLTier -> Z.
Variable get_required_approver : Action -> string.

(** [ApprovalPolicyManager.get_approval_requirements] *)
Definition get_approval_requirements (action : Action) (tier : Tier.HITLTier)
  : ApprovalRequirements :=
  {| req_tier := tier;
     req_timeout := get_timeout tier;
     required_role := get_required_approver action;
     can_modify := tier_eqb tier Tier.TIER_3;
     emergency_override := negb (tier_eqb tier Tier.TIER_4) |}.

End ApprovalPolicyManager.

(** What the user answers to one presentation of the approval dialog. *)
Record UserResponse : Type := mkUserResponse {
  ur_action : string;
  ur_user : string;
  ur_reason : option string;
  ur_modifications : option string
}.

(** An [ApprovalResponse]; a keyword the constructor call leaves out is
    [None]. *)
Record ApprovalResponse : Type := mkApprovalResponse {
  decision : string;
  resp_reason : option string;
  resp_modifications : option string;
  resp_timestamp : Z;
  resp_user : string
}.

Record VerificationCheck : Type := mkVerificationCheck {
  vc_description : string;
  vc_passed : bool
}.

Record ActionProposal (Confidence : Type) : Type := mkActionProposal {
  action_description : string;
  proposal_parameters : Parameters;
  reasoning : string;
  confidence : Confidence;
  risk_level : string;
  verification_checks : list VerificationCheck
}.
Arguments action_description {Confidence} _.
Arguments proposal_parameters {Confidence} _.
Arguments reasoning {Confidence} _.
Arguments confidence {Confidence} _.
Arguments risk_level {Confidence} _.
Arguments verification_checks {Confidence} _.

Record Button : Type := mkButton {
  label : string;
  button_action : string;
  style : string
}.

(** The [details] dictionary of the dialog, one field for each key. *)
Record Details : Type := mkDetails {
  d_action : string;
  d_parameters : Parameters;
  d_reasoning : string;
  d_confidence : string;
  d_risk : string
}.

(** An entry of [buttons] is [None] where the conditional expression of
    the list gives [None]. *)
Record ApprovalUI : Type := mkApprovalUI {
  title : string;
  summary : string;
  details : Details;
  evidence : list string;
  buttons : list (option Button);
  ui_timeout : Z
}.

Section ApprovalInteractionModule.

Variable Confidence : Type.
(** The text of a confidence value in an f-string. *)
Variable str_confidence : Confidence -> string.
(** [self._generate_summary] *)
Variable generate_summary : ActionProposal Confidence -> string.
(** [datetime.now()] *)
Variable now : Z.

(** [ApprovalInteractionModule._build_approval_ui] *)
Definition build_approval_ui (proposal : ActionProposal Confidence)
    (requirements : ApprovalRequirements) : ApprovalUI :=
  {| title := "Action Approval Required";
     summary := generate_summary proposal;
     details :=
       {| d_action := action_description proposal;
          d_parameters := proposal_parameters proposal;
          d_reasoning := reasoning proposal;
          d_confidence := (str_confidence (confidence proposal) ++ "%")%string;
          d_risk := risk_level proposal |};
     evidence :=
       map (fun check => ("✓ " ++ vc_description check)%string)
           (List.filter vc_passed (verification_checks proposal));
     buttons :=
       [ Some (mkButton "Approve" "APPROVE" "success");
         Some (mkButton "Deny" "DENY" "danger");
         (if can_modify requirements
          then Some (mkButton "Modify" "MODIFY" "warning") else None);
         Some (mkButton "Explain More" "EXPLAIN" "info") ];
     ui_timeout := req_timeout requirements |}.

(** [ApprovalInteractionModule.request_approval], run against the
    answers the user gives to the successive presentations of the dialog.
    The first component is [None] while the user has not given a last
    answer, [Some None] when the method returns without a value, and
    [Some (Some r)] when it returns [r]; the second counts the calls of
    [_show_detailed_explanation]. *)
Fixpoint request_approval (answers : list UserResponse)
    (proposal : ActionProposal Confidence)
    (requirements : ApprovalRequirements)
  : option (option ApprovalResponse) * nat :=
  match answers with
  | [] => (None, 0)
  | user_response :: later =>
      let approval_ui := build_approval_ui proposal requirements in
      if String.eqb (ur_action user_response) "APPROVE" then
        (Some (Some {| decision := "APPROVED";
                       resp_reason := None;
                       resp_modifications := None;
                       resp_timestamp := now;
                       resp_user := ur_user user_response |}), 0)
      else if String.eqb (ur_action user_response) "DENY" then
        (Some (Some {| decision := "DENIED";
                       resp_reason := ur_reason user_response;
                       resp_modifications := None;
                       resp_timestamp := now;
                       resp_user := ur_user user_response |}), 0)
      else if String.eqb (ur_action user_response) "MODIFY" then
        (Some (Some {| decision := "MODIFY";
                       resp_reason := None;
                       resp_modifications := ur_modifications user_response;
                       resp_timestamp := now;
                       resp_user := ur_user user_response |}), 0)
      else if String.eqb (ur_action user_response) "EXPLAIN" then
        let '(response, shown) :=
          request_approval later proposal requirements in
        (response, S shown)
      else (Some None, 0)
  end.

End ApprovalInteractionModule.

End Approval.

(** ** Tool registry and tool discovery *)

Module Registry.

(** What [register_tool] raises: its own [ToolRegistryError], or what the
    validation of the specification raises. *)
Inductive Failure : Type :=
  | ToolRegistryError (msg : string)
  | Raised (e : Exception).

Section ToolRegistry.

(** The registry backend: a store of specifications by tool id. *)
Variable Backend : Type.
Variable SearchCriteria : Type.
Variable backend_get : Backend -> string -> option ToolExec.ToolSpecification.
Variable backend_save :
  Backend -> string -> ToolExec.ToolSpecification -> Backend.
Variable backend_search :
  Backend -> SearchCriteria -> list ToolExec.ToolSpecification.
(** [self._validate_spec] *)
Variable validate_spec : ToolExec.ToolSpecification -> Raises unit.

Record ToolRegistry : Type := mkToolRegistry {
  backend : Backend;
  cache : gmap string ToolExec.ToolSpecification
}.

(** [ToolRegistry.register_tool]: the outcome and the registry as the
    call leaves it. *)
Definition register_tool (tool_spec : ToolExec.ToolSpecification)
    (self : ToolRegistry) : (Failure + unit) * ToolRegistry :=
  match validate_spec tool_spec with
  | inl e => (inl (Raised e), self)
  | inr _ =>
      match backend_get (backend self) (ToolExec.spec_id tool_spec) with
      | Some existing =>
          (inl (ToolRegistryError
                  ("Tool " ++ ToolExec.spec_id tool_spec
                   ++ " already registered")%string), self)
      | None =>
          (inr tt,
           {| backend :=
                backend_save (backend self) (ToolExec.spec_id tool_spec)
                             tool_spec;
              cache :=
                <[ToolExec.spec_id tool_spec := tool_spec]> (cache self) |})
      end
  end.

(** [ToolRegistry.get_tool] *)
Definition get_tool (tool_id : string) (self : ToolRegistry)
  : Raises ToolExec.ToolSpecification * ToolRegistry :=
  match cache self !! tool_id with
  | Some tool_spec => (ret tool_spec, self)
  | None =>
      match backend_get (backend self) tool_id with
      | None =>
          (raise (ToolNotFoundError
                    ("Tool " ++ tool_id ++ " not found")%string), self)
      | Some tool_spec =>
          (ret tool_spec,
           {| backend := backend self;
              cache := <[tool_id := tool_spec]> (cache self) |})
      end
  end.

(** [ToolRegistry.search_tools] *)
Definition search_tools (criteria : SearchCriteria) (self : ToolRegistry)
  : list ToolExec.ToolSpecification :=
  backend_search (backend self) criteria.

(** The cache holds nothing but what the backend holds under the same
    id. *)
Definition coherent (self : ToolRegistry) : Prop :=
  forall tool_id tool_spec,
    cache self !! tool_id = Some tool_spec ->
    backend_get (backend self) tool_id = Some tool_spec.

End ToolRegistry.

Arguments backend {Backend} _.
Arguments cache {Backend} _.

End Registry.

Module Discovery.

Section ToolDiscoveryEngine.

(** [self.usage_tracker.get_success_rate] *)
Variable get_success_rate : string -> string -> Q.

(** The sort key of [_rank_by_success_rate]. *)
Definition rate (task_type : string) (t : ToolExec.ToolSpecification) : Q :=
  get_success_rate (ToolExec.spec_id t) task_type.

(** [sorted(tools, key=..., reverse=True)] is a stable sort by
    descending key: a tool is put before the first tool of the sorted rest
    whose key is not greater than its own, so tools of equal key keep the
    order they came in. *)
Fixpoint insert_by_rate (task_type : string) (t : ToolExec.ToolSpecification)
    (sorted : list ToolExec.ToolSpecification)
  : list ToolExec.ToolSpecification :=
  match sorted with
  | [] => [t]
  | u :: rest =>
      if Qle_bool (rate task_type u) (rate task_type t)
      then t :: u :: rest
      else u :: insert_by_rate task_type t rest
  end.

(** [ToolDiscoveryEngine._rank_by_success_rate] *)
Definition rank_by_success_rate (tools : list ToolExec.ToolSpecification)
    (task_type : string) : list ToolExec.ToolSpecification :=
  fold_right (insert_by_rate task_type) [] tools.

End ToolDiscoveryEngine.

End Discovery.

(** ** MCP client and MCP servers *)

Module MCP.

(** The exceptions of the MCP layer: its own two classes, and any other
    exception. *)
Inductive MCPException : Type :=
  | MCPTimeoutError
  | MCPServerError (msg : string)
  | OtherError (e : Exception).

(** [str(e)] *)
Definition str_of_mcp_exception (e : MCPException) : string :=
  match e with
  | MCPTimeoutError => ""
  | MCPServerError msg => msg
  | OtherError e => str_of_exception e
  end.

Definition MCPRaises (A : Type) : Type := (MCPException + A)%type.

Record MCPRequest : Type := mkMCPRequest {
  version : string;
  tool_endpoint : string;
  req_parameters : Parameters;
  req_credentials : string;
  trace_id : string;
  req_timeout : Z
}.

Record MCPResponse : Type := mkMCPResponse {
  resp_status : string;
  resp_data : option string;
  resp_error : option string;
  resp_metadata : gmap string string
}.

(** An [MCPResult]; a keyword the constructor call leaves out is
    [None]. *)
Record MCPResult : Type := mkMCPResult {
  res_status : string;
  res_data : option string;
  res_error : option string;
  res_metadata : option (gmap string string)
}.

Section MCPClient.

(** [self._prepare_credentials] and [self._generate_trace_id] *)
Variable prepare_credentials : string -> string.
Variable generate_trace_id : string.
(** [self.transport.send(request, timeout=...)] *)
Variable transport_send : MCPRequest -> Z -> MCPRaises MCPResponse.
(** [self._validate_response] *)
Variable validate_response : MCPResponse -> MCPRaises unit.

(** The body of the [try] of [call_tool]. *)
Definition send_and_validate (mcp_request : MCPRequest) (timeout : Z)
  : MCPRaises MCPResult :=
  match transport_send mcp_request timeout with
  | inl e => inl e
  | inr mcp_response =>
      match validate_response mcp_response with
      | inl e => inl e
      | inr _ =>
          inr {| res_status := "SUCCESS";
                 res_data := resp_data mcp_response;
                 res_error := None;
                 res_metadata := Some (resp_metadata mcp_response) |}
      end
  end.

(** [MCPClient.call_tool] *)
Definition call_tool (endpoint : string) (parameters : Parameters)
    (timeout : Z) (credentials : string) : MCPRaises MCPResult :=
  let mcp_request :=
    {| version := "1.0";
       tool_endpoint := endpoint;
       req_parameters := parameters;
       req_credentials := prepare_credentials credentials;
       trace_id := generate_trace_id;
       req_timeout := timeout |} in
  match send_and_validate mcp_request timeout with
  | inr result => inr result
  | inl MCPTimeoutError =>
      inr {| res_status := "TIMEOUT";
             res_data := None;
             res_error := Some "MCP call timed out";
             res_metadata := None |}
  | inl (MCPServerError msg) =>
      inr {| res_status := "SERVER_ERROR";
             res_data := None;
             res_error := Some (str_of_mcp_exception (MCPServerError msg));
             res_metadata := None |}
  | inl e => inl e
  end.

End MCPClient.

(** What a server does to its audit logger and to the tool logic, in the
    order it does it. [ToolLogicRun] is not a call of the Python code on
    a collaborator; it records that [self.execute] was entered. *)
Inductive ServerCall (Result : Type) : Type :=
  | AuditBegin (audit_id : string) (request : MCPRequest)
  | ToolLogicRun (parameters : Parameters)
  | AuditSuccess (audit_id : string) (result : Result)
  | AuditFailure (audit_id : string) (error : string).
Arguments AuditBegin {Result} _ _.
Arguments ToolLogicRun {Result} _.
Arguments AuditSuccess {Result} _ _.
Arguments AuditFailure {Result} _ _.

Record AuthenticationResult (User : Type) : Type := mkAuthenticationResult {
  authenticated : bool;
  auth_user : User
}.
Arguments authenticated {User} _.
Arguments auth_user {User} _.

Record ValidationResult : Type := mkValidationResult {
  valid : bool;
  errors : list string
}.

Section GeisingerMCPServer.

Variable User : Type.
Variable MCPContext : Type.
Variable Result : Type.
Variable RateLimiter : Type.

(** [self.auth_manager.verify] and [self.auth_manager.check_authorization] *)
Variable verify : string -> MCPContext -> AuthenticationResult User.
Variable check_authorization : User -> string -> bool.
(** [self._validate_input] and [self._validate_output] *)
Variable validate_input : Parameters -> ValidationResult.
Variable validate_output : Result -> ValidationResult.
(** [self.rate_limiter.check]: whether the limit is exceeded, and the
    limiter after the check. *)
Variable rate_check : RateLimiter -> User -> bool * RateLimiter.
(** The identifier [self.audit_logger.begin] returns. *)
Variable fresh_audit_id : list (ServerCall Result) -> string.
(** The abstract method [execute]. *)
Variable execute : Parameters -> MCPContext -> MCPRaises Result.
(** The class methods of [MCPResponse] the server calls. The dataclass
    of the interface declares the four fields and no method, so a call of
    one of them is a call that may raise (on the class as it is declared,
    [AttributeError]). *)
Variable unauthorized : MCPRaises MCPResponse.
Variable forbidden : MCPRaises MCPResponse.
Variable bad_request : list string -> MCPRaises MCPResponse.
Variable rate_limited : MCPRaises MCPResponse.
Variable success : Result -> MCPRaises MCPResponse.

Record ServerState : Type := mkServerState {
  rate_limiter : RateLimiter;
  calls : list (ServerCall Result)
}.

(** Steps 6 and 7, the body of the [try] before the success audit. *)
Definition execute_and_validate (request : MCPRequest) (context : MCPContext)
  : MCPRaises Result :=
  match execute (req_parameters request) context with
  | inl e => inl e
  | inr result =>
      if negb (valid (validate_output result))
      then inl (MCPServerError "Invalid output generated")
      else inr result
  end.

(** [GeisingerMCPServer.handle_request]. The four early returns are
    before the [try]. The success audit and [MCPResponse.success(result)]
    are inside it: an exception of the latter is caught by
    [except Exception], which completes the audit a second time, as a
    failure, and raises the exception again. *)
Definition handle_request (request : MCPRequest) (context : MCPContext)
    (st : ServerState) : MCPRaises MCPResponse * ServerState :=
  (* 1. Verify authentication *)
  let auth_result := verify (req_credentials request) context in
  if negb (authenticated auth_result) then (unauthorized, st)
  else
    (* 2. Check authorization *)
    if negb (check_authorization (auth_user auth_result)
                                 (tool_endpoint request))
    then (forbidden, st)
    else
      (* 3. Validate input *)
      let validation_result := validate_input (req_parameters request) in
      if negb (valid validation_result)
      then (bad_request (errors validation_result), st)
      else
        (* 4. Check rate limits *)
        let '(exceeded, limiter) :=
          rate_check (rate_limiter st) (auth_user auth_result) in
        if exceeded
        then (rate_limited,
              {| rate_limiter := limiter; calls := calls st |})
        else
          (* 5. Begin audit log *)
          let audit_id := fresh_audit_id (calls st) in
          let begun :=
            calls st ++ [AuditBegin audit_id request;
                         ToolLogicRun (req_parameters request)] in
          match execute_and_validate request context with
          | inr result =>
              (* 8. Success audit *)
              let audited := begun ++ [AuditSuccess audit_id result] in
              match success result with
              | inr response =>
                  (inr response,
                   {| rate_limiter := limiter; calls := audited |})
              | inl e =>
                  (inl e,
                   {| rate_limiter := limiter;
                      calls :=
                        audited
                        ++ [AuditFailure audit_id
                              (str_of_mcp_exception e)] |})
              end
          | inl e =>
              (inl e,
               {| rate_limiter := limiter;
                  calls :=
                    begun
                    ++ [AuditFailure audit_id (str_of_mcp_exception e)] |})
          end.

End GeisingerMCPServer.

Arguments rate_limiter {Result RateLimiter} _.
Arguments calls {Result RateLimiter} _.

Section EHRMCPServer.

Variable MCPContext : Type.
Variable EHRData : Type.
Variable PatientData : Type.

(** [self.ehr_client.get_patient] and [self._transform_patient_data] *)
Variable get_patient : string -> string -> MCPRaises EHRData.
Variable transform_patient_data : EHRData -> PatientData.
(** [self._get_lab_results], not given in the design. *)
Variable get_lab_results : Parameters -> MCPContext -> MCPRaises PatientData.

(** [EHRMCPServer._fetch_patient_data]; [parameters["patient_id"]] raises
    [KeyError] on a dictionary without that key. *)
Definition fetch_patient_data (parameters : Parameters) (context : MCPContext)
  : MCPRaises PatientData :=
  match parameters !! "patient_id" with
  | None => inl (OtherError (BuiltinError "KeyError" "'patient_id'"))
  | Some patient_id =>
      let data_type := default "summary" (parameters !! "data_type") in
      match get_patient patient_id data_type with
      | inl e => inl e
      | inr ehr_data => inr (transform_patient_data ehr_data)
      end
  end.

(** The text of [operation] in the f-string; [parameters.get] gives
    [None] for a missing key. *)
Definition str_of_operation (operation : option string) : string :=
  match operation with
  | Some name => name
  | None => "None"
  end.

(** [EHRMCPServer.execute] *)
Definition ehr_execute (parameters : Parameters) (context : MCPContext)
  : MCPRaises PatientData :=
  let operation := parameters !! "operation" in
  if bool_decide (operation = Some "fetch_patient_data") then
    fetch_patient_data parameters context
  else if bool_decide (operation = Some "get_lab_results") then
    get_lab_results parameters context
  else
    inl (MCPServerError
           ("Unknown operation: " ++ str_of_operation operation)%string).

End EHRMCPServer.

End MCP.

(** ** Instances of the further components

    A second orchestrator on the tools of [Demo], whose planner takes the
    tools of the first plan and those of the adapted plans from the task
    and whose safety check is critical; a tool executor whose MCP call
    fails; a registry on a map; and an EHR server whose patient data are
    texts. *)

Module Services.

(** A task: the tools of the initial plan and those of every adapted
    plan. *)
Definition Task : Type := (Demo.Task * Demo.Task)%type.

(** The completeness check fails, without being critical, when a step
    result has the failure flag. *)
Definition check_completeness (result : ExecutionResult Demo.Output)
    (requirements : list string) : Check :=
  {| passed := forallb (fun r => negb (sr_failure r)) (er_steps result);
     critical_check := false;
     message := "no step failed";
     score := 1 |}.

(** The safety check fails, and is critical, when the plan was
    aborted. *)
Definition check_safety (result : ExecutionResult Demo.Output)
    (context : Demo.Context) : Check :=
  {| passed := negb (String.eqb (er_status result) "FAILED");
     critical_check := true;
     message := "plan not aborted";
     score := 1 |}.

Definition verify
  : ExecutionResult Demo.Output -> Plan -> Demo.Context -> VerificationResult :=
  verify Demo.Context Demo.Output
    (fun _ _ => Demo.ok_check) check_completeness (fun _ _ => Demo.ok_check)
    (fun _ _ => Demo.ok_check) (fun _ _ => Demo.ok_check) check_safety
    (map message).

Definition execute_task (task : Task)
  : Raises (AgentResponse Demo.Output (list string)) :=
  execute_task Task Demo.Context Demo.Context Demo.Output (list string)
    (fun _ => []) (fun context => context)
    (fun task => Demo.plan_of (fst task))
    (fun task => Demo.plan_of (snd task))
    Demo.execute_plan verify (fun _ => "plan aborted")
    (fun context _ => context) Demo.trace task.

Definition step (tool : string) (crit : bool) : PlanStep :=
  {| tool_id := tool; parameters := ∅;
     critical := crit; parallel_safe := false |}.

(** A working memory with one recorded error. *)
Definition memory_with_error : Memory.WorkingMemory :=
  {| Memory.max_tokens := 50000;
     Memory.conversation_history := ["hello"];
     Memory.task_state := ∅;
     Memory.tool_results := ∅;
     Memory.temporary_conclusions := [];
     Memory.error_history := ["disk full"] |}.

(** The tool executor of [Demo] with an MCP client that cannot reach the
    tool. *)
Definition failing_executor
  : ToolExec.ToolSpecification -> Parameters -> string ->
    ToolExec.ExecutorState -> Raises ToolResult * ToolExec.ExecutorState :=
  ToolExec.execute string string
    Demo.check_authorization
    (fun _ _ _ => {| ToolExec.granted := true |})
    (fun params _ => ret params)
    (fun tool_spec _ => ToolExec.spec_id tool_spec)
    (fun _ _ _ _ => raise (MCPError "connection refused"))
    (fun mcp_result tool_spec =>
       ret {| tr_status := "SUCCESS"; tr_data := Some mcp_result;
              tr_error := None; tr_tool_id := ToolExec.spec_id tool_spec;
              tr_duration := None |}).

Definition cold_state : ToolExec.ExecutorState :=
  {| ToolExec.result_cache := ∅; ToolExec.log := [] |}.

(** A registry whose backend is a map from tool ids to specifications. *)
Definition Backend : Type := gmap string ToolExec.ToolSpecification.

Definition backend_get (b : Backend) (tool_id : string)
  : option ToolExec.ToolSpecification := b !! tool_id.

Definition backend_save (b : Backend) (tool_id : string)
    (tool_spec : ToolExec.ToolSpecification) : Backend :=
  <[tool_id := tool_spec]> b.

Definition register_tool
  : ToolExec.ToolSpecification -> Registry.ToolRegistry Backend ->
    (Registry.Failure + unit) * Registry.ToolRegistry Backend :=
  Registry.register_tool Backend backend_get backend_save (fun _ => ret tt).

Definition get_tool
  : string -> Registry.ToolRegistry Backend ->
    Raises ToolExec.ToolSpecification * Registry.ToolRegistry Backend :=
  Registry.get_tool Backend backend_get.

Definition empty_registry : Registry.ToolRegistry Backend :=
  {| Registry.backend := ∅; Registry.cache := ∅ |}.

(** A registry that holds the tool ["fetch"]. *)
Definition fetch_registry : Registry.ToolRegistry Backend :=
  {| Registry.backend := {[ "fetch" := Demo.fetch_spec false ]};
     Registry.cache := {[ "fetch" := Demo.fetch_spec false ]} |}.

(** A class method of [MCPResponse] on the class as the interface
    declares it: the attribute does not exist. *)
Definition no_class_method (name : string) : MCP.MCPRaises MCP.MCPResponse :=
  inl (MCP.OtherError
         (BuiltinError "AttributeError"
            ("type object 'MCPResponse' has no attribute '" ++ name ++ "'")%string)).

(** An EHR server: the credentials ["token"] are those of ["alice"], who
    is authorized for every endpoint; all parameters are valid; the limit
    is three requests; patient data are texts, and an empty text is not a
    valid output. [MCPResponse] is the class as declared, without class
    methods. *)
Definition ehr_server
  : MCP.MCPRequest -> unit -> MCP.ServerState string nat ->
    MCP.MCPRaises MCP.MCPResponse * MCP.ServerState string nat :=
  MCP.handle_request string unit string nat
    (fun credentials _ =>
       {| MCP.authenticated := String.eqb credentials "token";
          MCP.auth_user := "alice" |})
    (fun _ _ => true)
    (fun _ => {| MCP.valid := true; MCP.errors := [] |})
    (fun data =>
       {| MCP.valid := negb (String.eqb data ""); MCP.errors := [] |})
    (fun limiter _ => (Nat.leb 3 limiter, S limiter))
    (fun calls => "audit-1")
    (MCP.ehr_execute unit string string
       (fun patient_id data_type =>
          inr (patient_id ++ ":" ++ data_type)%string)
       (fun ehr_data => ehr_data)
       (fun _ _ => inr ""))
    (no_class_method "unauthorized")
    (no_class_method "forbidden")
    (fun errors => no_class_method "bad_request")
    (no_class_method "rate_limited")
    (fun result => no_class_method "success").

Definition ehr_request (params : Parameters) : MCP.MCPRequest :=
  {| MCP.version := "1.0";
     MCP.tool_endpoint := "mcp://ehr";
     MCP.req_parameters := params;
     MCP.req_credentials := "token";
     MCP.trace_id := "trace-1";
     MCP.req_timeout := 1000 |}.

Definition fresh_server : MCP.ServerState string nat :=
  {| MCP.rate_limiter := 0; MCP.calls := [] |}.

Definition answer (action : string) : Approval.UserResponse :=
  {| Approval.ur_action := action;
     Approval.ur_user := "carol";
     Approval.ur_reason := Some "not now";
     Approval.ur_modifications := None |}.

Definition proposal : Approval.ActionProposal Z :=
  {| Approval.action_description := "send the contract";
     Approval.proposal_parameters := ∅;
     Approval.reasoning := "the contract is signed";
     Approval.confidence := 92%Z;
     Approval.risk_level := "LOW";
     Approval.verification_checks := [] |}.

Definition tier_3_requirements : Approval.ApprovalRequirements :=
  Approval.get_approval_requirements unit (fun _ => 300%Z)
    (fun _ => "manager") tt Tier.TIER_3.

Definition request_approval
  : list Approval.UserResponse -> option (option Approval.ApprovalResponse) * nat :=
  fun answers =>
    Approval.request_approval Z (fun _ => "92") (fun _ => "send the contract")
      0%Z answers proposal tier_3_requirements.

End Services.

(** * Properties *)

(** ** Tier classification *)

(** Case analysis on the membership of a string in a list of literals. *)
Ltac levels H :=
  simpl in H;
  repeat match type of H with
         | _ \/ _ => destruct H as [H | H]
         end;
  try contradiction; subst.

Section TierFacts.

Variable Action : Type.
Variable Verification : Type.
Variable assess_impact : Action -> string.
Variable assess_reversibility : Action -> string.
Variable assess_data_sensitivity : Action -> string.

Local Abbreviation classify :=
  (Tier.classify_action Action Verification
     assess_impact assess_reversibility assess_data_sensitivity).
Local Abbreviation well_formed :=
  (Tier.well_formed Action
     assess_impact assess_reversibility assess_data_sensitivity).

(** Among the declared sensitivity levels none is ["PHI"], the only
    value the engine looks for: the sensitivity does not enter the
    result. *)
Lemma determine_tier_sensitivity (impact reversibility s1 s2 : string) :
  In s1 Tier.sensitivity_levels ->
  In s2 Tier.sensitivity_levels ->
  Tier.determine_tier impact reversibility s1
  = Tier.determine_tier impact reversibility s2.
Proof.
  intros H1 H2. unfold Tier.determine_tier.
  levels H1; levels H2; reflexivity.
Qed.


(** Outside the table: where none of the four rows matches a
    well-formed action, the engine returns tier 2 for an action of MEDIUM
    impact and RESTRICTED sensitivity (its reversibility is then FULL or
    PARTIAL) and tier 4 for every other action. *)
Lemma classifier_outside_table (action : Action)
    (verification : Verification) :
  well_formed action ->
  Tier.decision_table (assess_impact action)
    (assess_reversibility action) (assess_data_sensitivity action)
  = None ->
  classify action verification
  = if String.eqb (assess_impact action) "MEDIUM"
       && String.eqb (assess_data_sensitivity action) "RESTRICTED"
    then Tier.TIER_2 else Tier.TIER_4.
Proof.
  intros (Hi & Hr & Hs).
  unfold Tier.classify_action.
  set (impact := assess_impact action) in *.
  set (reversibility := assess_reversibility action) in *.
  set (sensitivity := assess_data_sensitivity action) in *.
  clearbody impact reversibility sensitivity.
  levels Hi; levels Hr; levels Hs; vm_compute; congruence.
Qed.


(** C3. Two actions that differ only in their data sensitivity, PUBLIC
    for the first and RESTRICTED for the second: the tier of the second
    is at least the tier of the first. *)
Theorem C3_tier_monotone_in_sensitivity (public restricted : Action)
    (verification : Verification) :
  assess_impact public = assess_impact restricted ->
  assess_reversibility public = assess_reversibility restricted ->
  assess_data_sensitivity public = "PUBLIC" ->
  assess_data_sensitivity restricted = "RESTRICTED" ->
  Tier.level (classify public verification)
  <= Tier.level (classify restricted verification).
Proof.
  intros Hi Hr Hp Hs. unfold Tier.classify_action.
  rewrite Hi, Hr, Hp, Hs.
  rewrite (determine_tier_sensitivity _ _ "PUBLIC" "RESTRICTED");
    [lia | simpl; tauto | simpl; tauto].
Qed.

End TierFacts.


(** (MEDIUM, NONE) with PUBLIC and with RESTRICTED data. *)
Lemma C3_tier_monotone_in_sensitivity_witness :
  Tier.level (Tier.classify_attr (Tier.mkAction "MEDIUM" "NONE" "PUBLIC"))
  <= Tier.level
       (Tier.classify_attr (Tier.mkAction "MEDIUM" "NONE" "RESTRICTED")).
Proof.
  apply (C3_tier_monotone_in_sensitivity Tier.AttrAction unit
           Tier.act_impact Tier.act_reversibility Tier.act_data_sensitivity
           (Tier.mkAction "MEDIUM" "NONE" "PUBLIC")
           (Tier.mkAction "MEDIUM" "NONE" "RESTRICTED") tt);
    reflexivity.
Defined.

(** ** Self-verifier *)

Section SelfVerifierFacts.

Variable ExecutionContext : Type.
Variable Output : Type.
Variable check_policy_compliance :
  ExecutionResult Output -> ExecutionContext -> Check.
Variable check_completeness :
  ExecutionResult Output -> list string -> Check.
Variable check_consistency :
  ExecutionResult Output -> ExecutionContext -> Check.
Variable check_quality :
  ExecutionResult Output -> ExecutionContext -> Check.
Variable assess_confidence :
  ExecutionResult Output -> ExecutionContext -> Check.
Variable check_safety :
  ExecutionResult Output -> ExecutionContext -> Check.
Variable extract_issues : list Check -> list string.

Local Abbreviation verifier :=
  (verify ExecutionContext Output check_policy_compliance
     check_completeness check_consistency check_quality assess_confidence
     check_safety extract_issues).

(** C1. The verdict of [verify] holds the six checks in their order;
    [passed] is the conjunction of their [passed] flags; [complete] is
    [passed] and no step left in the plan; [should_escalate] holds
    exactly when one of the six checks failed and is critical. *)
Theorem C1_verify_aggregates_six_checks (result : ExecutionResult Output)
    (plan : Plan) (context : ExecutionContext) :
  let policy := check_policy_compliance result context in
  let completeness := check_completeness result (requirements plan) in
  let consistency := check_consistency result context in
  let quality := check_quality result context in
  let confidence := assess_confidence result context in
  let safety := check_safety result context in
  let verdict := verifier result plan context in
  vr_checks verdict
  = [policy; completeness; consistency; quality; confidence; safety]
  /\ vr_passed verdict
     = (passed policy && passed completeness && passed consistency
        && passed quality && passed confidence && passed safety)
  /\ vr_complete verdict
     = (vr_passed verdict && negb (has_more_steps plan))
  /\ (vr_should_escalate verdict = true <->
      exists check,
        In check [policy; completeness; consistency; quality; confidence;
                  safety]
        /\ passed check = false /\ critical_check check = true).
Proof.
  intros policy completeness consistency quality confidence safety verdict.
  repeat split.
  - subst verdict. cbn. rewrite andb_true_r, !andb_assoc. reflexivity.
  - subst verdict. unfold verify, run_checks.
    cbn [vr_should_escalate app].
    intros Hesc. apply existsb_exists in Hesc as (check & Hin & Hcrit).
    exists check. apply andb_prop in Hcrit as [Hfailed Hcritical].
    unfold failed in Hfailed. apply negb_true_iff in Hfailed. auto.
  - intros (check & Hin & Hfailed & Hcritical).
    subst verdict. unfold verify, run_checks.
    cbn [vr_should_escalate app].
    apply existsb_exists. exists check. split; [exact Hin |].
    unfold failed. rewrite Hfailed, Hcritical. reflexivity.
Qed.

End SelfVerifierFacts.

(** ** Executor *)

Section ExecutorFacts.

Variable ExecutionContext : Type.
Variable Tool : Type.
Variable Output : Type.
Variable add_step_result : ExecutionContext -> StepResult -> ExecutionContext.
Variable get_tool : string -> Raises Tool.
Variable tool_execute :
  Tool -> Parameters -> ExecutionContext -> Raises ToolResult.
Variable execute_parallel : PlanStep -> ExecutionContext -> Raises StepResult.
Variable aggregate_outputs : list StepResult -> Output.

Local Abbreviation sequential :=
  (execute_sequential ExecutionContext Tool get_tool tool_execute).
Local Abbreviation step_runner :=
  (run_step ExecutionContext Tool get_tool tool_execute execute_parallel).
Local Abbreviation steps_loop :=
  (execute_steps ExecutionContext Tool Output add_step_result get_tool
     tool_execute execute_parallel aggregate_outputs).
Local Abbreviation plan_executor :=
  (execute_plan ExecutionContext Tool Output add_step_result get_tool
     tool_execute execute_parallel aggregate_outputs).

(** One turn of the loop over the steps. *)
Lemma execute_steps_cons (step : PlanStep) (rest : list PlanStep)
    (results : list StepResult) (context : ExecutionContext) :
  steps_loop (step :: rest) results context
  = match step_runner step context with
    | inl e => raise e
    | inr step_result =>
        if sr_failure step_result && critical step then
          ret ({| er_steps := results ++ [step_result];
                  er_status := "FAILED";
                  er_failure_reason := sr_error step_result;
                  er_output := None |},
               add_step_result context step_result)
        else
          steps_loop rest (results ++ [step_result])
            (add_step_result context step_result)
    end.
Proof. reflexivity. Qed.

(** Steps that ran through without an abort: the loop goes on after
    them with their results and with the context they left. *)
Lemma execute_steps_app (done : list PlanStep) :
  forall results context result context' todo,
    steps_loop done results context = ret (result, context') ->
    er_status result = "SUCCESS" ->
    steps_loop (done ++ todo) results context
    = steps_loop todo (er_steps result) context'.
Proof.
  induction done as [| step rest IH];
    intros results context result context' todo.
  - cbn. intros [= <- <-] _. reflexivity.
  - rewrite <- app_comm_cons, !execute_steps_cons.
    destruct (step_runner step context) as [e | step_result];
      [discriminate |].
    destruct (sr_failure step_result && critical step).
    + intros [= <- <-]. cbn. discriminate.
    + apply IH.
Qed.

(** A run without an abort has added one result for each step. *)
Lemma execute_steps_length (todo : list PlanStep) :
  forall results context result context',
    steps_loop todo results context = ret (result, context') ->
    er_status result = "SUCCESS" ->
    length (er_steps result) = length results + length todo.
Proof.
  induction todo as [| step rest IH]; intros results context result context'.
  - cbn. intros [= <- <-] _. cbn. lia.
  - rewrite execute_steps_cons.
    destruct (step_runner step context) as [e | step_result];
      [discriminate |].
    destruct (sr_failure step_result && critical step).
    + intros [= <- <-]. cbn. discriminate.
    + intros Hrun Hok. rewrite (IH _ _ _ _ Hrun Hok).
      rewrite length_app. cbn. lia.
Qed.

(** C5. A plan whose steps [done] ran through, followed by a critical
    step whose result has the failure flag set: [execute_plan] returns
    at that step, with status ["FAILED"], the results of [done] and of
    the failed step and nothing else (one result for each step run),
    and the context as that step left it; the steps [remaining] have no
    part in the result. *)
Theorem C5_critical_failure_aborts_plan (plan : Plan)
    (done remaining : list PlanStep) (step : PlanStep)
    (context context1 : ExecutionContext)
    (result1 : ExecutionResult Output) (step_result : StepResult) :
  steps plan = done ++ step :: remaining ->
  steps_loop done [] context = ret (result1, context1) ->
  er_status result1 = "SUCCESS" ->
  step_runner step context1 = ret step_result ->
  critical step = true ->
  sr_failure step_result = true ->
  plan_executor plan context
  = ret ({| er_steps := er_steps result1 ++ [step_result];
            er_status := "FAILED";
            er_failure_reason := sr_error step_result;
            er_output := None |},
         add_step_result context1 step_result)
  /\ length (er_steps result1 ++ [step_result]) = S (length done).
Proof.
  intros Hsteps Hdone Hok Hrun Hcritical Hfailure. split.
  - unfold execute_plan. rewrite Hsteps.
    rewrite (execute_steps_app done _ _ _ _ _ Hdone Hok).
    rewrite execute_steps_cons, Hrun. unfold ret at 1.
    rewrite Hfailure, Hcritical. reflexivity.
  - rewrite length_app, (execute_steps_length _ _ _ _ _ Hdone Hok).
    cbn. lia.
Qed.

(** C7, as amended. When the tool of a sequential step is found and its
    call raises, the step ends as a [StepResult] of status ["FAILED"],
    with the failure flag and the text of the exception, if the
    exception is a [ToolExecutionError]; an exception of another class
    leaves [_execute_sequential]. *)
Theorem C7_tool_execution_error_becomes_failed_step (step : PlanStep)
    (context : ExecutionContext) (tool : Tool) (e : Exception) :
  get_tool (tool_id step) = ret tool ->
  tool_execute tool (parameters step) context = raise e ->
  sequential step context
  = if is_ToolExecutionError e then
      ret {| sr_step := step;
             sr_status := "FAILED";
             sr_output := None;
             sr_duration := None;
             sr_error := Some (str_of_exception e);
             sr_failure := true |}
    else raise e.
Proof.
  intros Hlookup Hcall. unfold execute_sequential.
  rewrite Hlookup. unfold ret at 1. rewrite Hcall. reflexivity.
Qed.

(** On a sequential step the failure flag and the status ["FAILED"] go
    together. *)
Lemma sequential_failed_iff_failure (step : PlanStep)
    (context : ExecutionContext) (step_result : StepResult) :
  sequential step context = ret step_result ->
  (sr_status step_result = "FAILED" <-> sr_failure step_result = true).
Proof.
  unfold execute_sequential.
  destruct (get_tool (tool_id step)) as [e | tool]; [discriminate |].
  destruct (tool_execute tool (parameters step) context) as [e | tool_result].
  - destruct (is_ToolExecutionError e); [| discriminate].
    intros [= <-]. cbn. split; reflexivity.
  - intros [= <-]. cbn. split; discriminate.
Qed.

(** An exception of the tool lookup leaves [_execute_sequential]
    whatever its class: the lookup stands before the [try]. *)
Lemma lookup_exception_propagates (step : PlanStep)
    (context : ExecutionContext) (e : Exception) :
  get_tool (tool_id step) = raise e ->
  sequential step context = raise e.
Proof. intros Hlookup. unfold execute_sequential. rewrite Hlookup. reflexivity. Qed.

(** An exception that leaves a step leaves [execute_plan]. *)
Lemma step_exception_leaves_plan (plan : Plan) (step : PlanStep)
    (rest : list PlanStep) (context : ExecutionContext) (e : Exception) :
  steps plan = step :: rest ->
  step_runner step context = raise e ->
  plan_executor plan context = raise e.
Proof.
  intros Hsteps Hrun. unfold execute_plan.
  rewrite Hsteps, execute_steps_cons, Hrun. reflexivity.
Qed.

End ExecutorFacts.

(** ** Orchestrator *)

(** A call of [AgentResponse] that does not pass [task_id] raises
    [TypeError]. *)
Lemma call_without_task_id_raises {Output Trace : Type}
    (kw : AgentResponseKeywords Output Trace) :
  kw_task_id kw = None ->
  exists msg, new_agent_response kw = raise (BuiltinError "TypeError" msg).
Proof.
  intros Hmissing. unfold new_agent_response. rewrite Hmissing.
  destruct (kw_reason kw); eexists; reflexivity.
Qed.

Section OrchestratorFacts.

Variable Task : Type.
Variable ExecutionContext : Type.
Variable GatheredContext : Type.
Variable Output : Type.
Variable Trace : Type.
Variable initial_context : Task -> ExecutionContext.
Variable gather_context : ExecutionContext -> GatheredContext.
Variable create_initial_plan : Task -> GatheredContext -> Plan.
Variable adapt_plan : Task -> GatheredContext -> Plan.
Variable executor_execute_plan :
  Plan -> ExecutionContext ->
  Raises (ExecutionResult Output * ExecutionContext).
Variable verifier_verify :
  ExecutionResult Output -> Plan -> ExecutionContext -> VerificationResult.
Variable escalation_reason : VerificationResult -> string.
Variable update_from_verification :
  ExecutionContext -> VerificationResult -> ExecutionContext.
Variable trace : ExecutionContext -> Trace.

Local Abbreviation iteration_of :=
  (run_iteration Task ExecutionContext GatheredContext Output
     gather_context create_initial_plan adapt_plan executor_execute_plan
     verifier_verify).
Local Abbreviation loop :=
  (agent_loop Task ExecutionContext GatheredContext Output Trace
     gather_context create_initial_plan adapt_plan executor_execute_plan
     verifier_verify escalation_reason update_from_verification trace).
Local Abbreviation task_executor :=
  (execute_task Task ExecutionContext GatheredContext Output Trace
     initial_context gather_context create_initial_plan adapt_plan
     executor_execute_plan verifier_verify escalation_reason
     update_from_verification trace).
Local Abbreviation all_continue :=
  (continues Task ExecutionContext GatheredContext Output
     gather_context create_initial_plan adapt_plan executor_execute_plan
     verifier_verify update_from_verification).

(** One turn of the agent loop. *)
Lemma agent_loop_cons (task : Task) (iteration : nat) (rest : list nat)
    (context : ExecutionContext) :
  loop task (iteration :: rest) context
  = match iteration_of task context iteration with
    | inl e => raise e
    | inr (execution_result, verification, context) =>
        if vr_complete verification then
          new_agent_response
            (complete_keywords ExecutionContext Output Trace trace
               execution_result verification context)
        else if vr_should_escalate verification then
          new_agent_response
            (escalated_keywords ExecutionContext Output Trace
               escalation_reason trace verification context)
        else
          loop task rest (update_from_verification context verification)
    end.
Proof. reflexivity. Qed.

(** Iterations that all go on leave the loop to the iterations after
    them, in the context they built. *)
Lemma agent_loop_continues (task : Task) (iterations : list nat)
    (context context' : ExecutionContext) :
  all_continue task iterations context context' ->
  forall later,
    loop task (iterations ++ later) context = loop task later context'.
Proof.
  induction 1 as [context | iteration rest context execution_result
                    verification context1 context' Hrun Hcomplete
                    Hescalate _ IH];
    intros later.
  - reflexivity.
  - rewrite <- app_comm_cons, agent_loop_cons, Hrun. unfold ret at 1.
    rewrite Hcomplete, Hescalate. apply IH.
Qed.

(** C6, on the code. An iteration whose verification is complete ends
    the loop, whatever iterations were still to run: the orchestrator
    calls [AgentResponse] with the execution result, the verification and
    the trace of that iteration and with no status, and the call raises
    [TypeError]; no response is returned. *)
Theorem C6_complete_iteration_raises_type_error (task : Task)
    (iteration : nat) (rest : list nat) (context context1 : ExecutionContext)
    (execution_result : ExecutionResult Output)
    (verification : VerificationResult) :
  iteration_of task context iteration
    = ret (execution_result, verification, context1) ->
  vr_complete verification = true ->
  let keywords :=
    complete_keywords ExecutionContext Output Trace trace
      execution_result verification context1 in
  loop task (iteration :: rest) context = new_agent_response keywords
  /\ kw_status keywords = None
  /\ (exists msg,
        loop task (iteration :: rest) context
        = raise (BuiltinError "TypeError" msg))
  /\ (forall response, loop task (iteration :: rest) context <> ret response).
Proof.
  intros Hrun Hcomplete keywords.
  assert (Hloop : loop task (iteration :: rest) context
                  = new_agent_response keywords).
  { rewrite agent_loop_cons, Hrun. unfold ret at 1.
    rewrite Hcomplete. reflexivity. }
  destruct (call_without_task_id_raises keywords eq_refl) as [msg Hmsg].
  rewrite Hloop. repeat split.
  - exists msg. exact Hmsg.
  - intros response Hreturned. rewrite Hmsg in Hreturned.
    discriminate Hreturned.
Qed.

(** C9, on the code. When each of the [max_iterations] iterations ends
    with a verification that is neither complete nor escalating,
    [execute_task] reaches the return after the loop: it calls
    [AgentResponse] with the status MAX_ITERATIONS and the trace of the
    context the last iteration left, and the call raises [TypeError]; no
    response is returned. *)
Theorem C9_exhausted_loop_raises_type_error (task : Task)
    (context' : ExecutionContext) :
  all_continue task (seq 0 max_iterations) (initial_context task) context' ->
  let keywords :=
    max_iterations_keywords ExecutionContext Output Trace trace context' in
  task_executor task = new_agent_response keywords
  /\ kw_status keywords = Some "MAX_ITERATIONS"
  /\ kw_trace keywords = Some (trace context')
  /\ (exists msg, task_executor task = raise (BuiltinError "TypeError" msg))
  /\ (forall response, task_executor task <> ret response).
Proof.
  intros Hall keywords.
  assert (Hrun : task_executor task = new_agent_response keywords).
  { unfold execute_task.
    rewrite <- (app_nil_r (seq 0 max_iterations)).
    rewrite (agent_loop_continues _ _ _ _ Hall []). reflexivity. }
  destruct (call_without_task_id_raises keywords eq_refl) as [msg Hmsg].
  rewrite Hrun. repeat split.
  - exists msg. exact Hmsg.
  - intros response Hreturned. rewrite Hmsg in Hreturned.
    discriminate Hreturned.
Qed.

End OrchestratorFacts.

(** ** Context budget manager *)

(** [allocate] adds the amount whatever the ceiling. *)
Lemma allocate_used (self : Budget.ContextBudgetManager) (category : string)
    (amount : Z) :
  Budget.used (Budget.allocate self category amount)
  = (Budget.used self + amount)%Z.
Proof. reflexivity. Qed.

(** [check_budget] rejects a request on the allocation of its category
    only: a request within it is never answered ["OVER_ALLOCATION"],
    however far above the ceiling the usage would get. *)
Lemma check_budget_ignores_ceiling (self : Budget.ContextBudgetManager)
    (category : string) (requested allocated : Z) :
  Budget.allocations self !! category = Some allocated ->
  (requested <= allocated)%Z ->
  Budget.status (Budget.check_budget self category requested)
  <> "OVER_ALLOCATION".
Proof.
  intros Hcat Hle. unfold Budget.check_budget. rewrite Hcat. cbn.
  destruct (Z.ltb_spec allocated requested); [lia |].
  destruct (Budget.above_80_percent _ _); cbn; discriminate.
Qed.

(** C4, on the code. A caller that asks [check_budget] before each of
    five writes of 50000 tokens to the working-memory category is
    answered APPROVED three times and WARNING twice, never
    OVER_ALLOCATION; the five writes are applied and the usage ends at
    250000, above the ceiling of 200000. *)
Theorem C4_checked_writes_cross_ceiling :
  let outcome := Budget.run Budget.five_checked_writes Budget.init in
  map Budget.status (snd outcome)
  = ["APPROVED"; "APPROVED"; "APPROVED"; "WARNING"; "WARNING"]
  /\ Budget.used (fst outcome) = 250000%Z
  /\ (Budget.total_budget (fst outcome) < Budget.used (fst outcome))%Z.
Proof. vm_compute. repeat split. Qed.

(** The usage does not stay within the ceiling under every sequence of
    calls. *)
Lemma usage_not_within_ceiling : ~ Budget.usage_within_ceiling.
Proof.
  intros Hclaim. specialize (Hclaim Budget.five_checked_writes).
  vm_compute in Hclaim. apply Hclaim. reflexivity.
Qed.

(** ** Compaction *)

Section CompactionFacts.

Variable count_conversation_tokens : list string -> Z.
Variable count_task_state_tokens : gmap string string -> Z.
Variable count_tool_results_tokens : gmap string Memory.CachedResult -> Z.
Variable count_conclusions_tokens : list string -> Z.
Variable critical_items : Memory.WorkingMemory -> list string.
Variable extract_critical_data : Memory.WorkingMemory -> list string.
Variable summarize_conversation : list string -> Z -> string.
Variable compress_tool_results : gmap string Memory.CachedResult -> string.
Variable count_compact_tokens : list string -> string -> string -> Z.

Local Abbreviation built :=
  (Memory.build_compact_memory count_conversation_tokens
     count_task_state_tokens count_tool_results_tokens
     count_conclusions_tokens extract_critical_data summarize_conversation
     compress_tool_results count_compact_tokens).
Local Abbreviation verified :=
  (Memory.verify_no_data_loss critical_items).
Local Abbreviation compact :=
  (Memory.compact_working_memory count_conversation_tokens
     count_task_state_tokens count_tool_results_tokens
     count_conclusions_tokens critical_items extract_critical_data
     summarize_conversation compress_tool_results count_compact_tokens).

(** A filter that keeps nothing rejects every element. *)
Lemma filter_nil_all_false {A : Type} (f : A -> bool) (l : list A) :
  List.filter f l = [] -> forall x, In x l -> f x = false.
Proof.
  induction l as [| a l IH]; cbn; intros Hnil x Hin; [contradiction |].
  destruct (f a) eqn:Hfa; [discriminate |].
  destruct Hin as [<- | Hin]; [exact Hfa | apply IH; assumption].
Qed.

(** A passed verification: every critical item is in the compact
    memory. *)
Lemma verification_passed_no_loss (working_memory : Memory.WorkingMemory)
    (memory : Memory.CompactMemory) :
  Memory.dl_passed (verified working_memory memory) = true ->
  forall item,
    In item (critical_items working_memory) ->
    Memory.contains memory item = true.
Proof.
  unfold Memory.verify_no_data_loss. cbn.
  destruct (List.filter _ _) eqn:Hmissing; [| discriminate].
  intros _ item Hin.
  apply (filter_nil_all_false _ _ Hmissing) in Hin.
  apply negb_false_iff in Hin. exact Hin.
Qed.

(** What [compact_working_memory] returns is the memory it built and
    holds every critical item of the working memory. *)
Lemma compaction_keeps_critical_items
    (working_memory : Memory.WorkingMemory) (target_tokens : Z)
    (result : Memory.CompactionResult) :
  compact working_memory target_tokens = ret result ->
  Memory.compact_memory result = built working_memory
  /\ forall item,
       In item (critical_items working_memory) ->
       Memory.contains (Memory.compact_memory result) item = true.
Proof.
  unfold Memory.compact_working_memory.
  destruct (Memory.dl_passed (verified working_memory (built working_memory)))
    eqn:Hpassed; cbn; [| discriminate].
  unfold Memory.true_division.
  destruct (Z.eqb _ 0); cbn; [discriminate |].
  intros [= <-]. split; [reflexivity |].
  intros item Hin.
  exact (verification_passed_no_loss _ _ Hpassed item Hin).
Qed.


(** The three ways a compaction ends: a result that holds every critical
    item, a [CompactionError] that lists the missing ones, or a division
    by zero after a passed verification. *)
Lemma compaction_outcomes (working_memory : Memory.WorkingMemory)
    (target_tokens : Z) :
  (exists result,
      compact working_memory target_tokens = ret result
      /\ forall item,
           In item (critical_items working_memory) ->
           Memory.contains (Memory.compact_memory result) item = true)
  \/ (exists missing,
        compact working_memory target_tokens
        = raise (CompactionError missing)
        /\ missing <> [])
  \/ (compact working_memory target_tokens = raise ZeroDivisionError
      /\ Memory.compressed_size (built working_memory) = 0%Z).
Proof.
  destruct (compact working_memory target_tokens) as [e | result] eqn:Hrun.
  - right. revert Hrun. unfold Memory.compact_working_memory.
    destruct (Memory.dl_passed (verified working_memory (built working_memory)))
      eqn:Hpassed; cbn [negb].
    + unfold Memory.true_division.
      destruct (Z.eqb_spec (Memory.compressed_size (built working_memory)) 0)
        as [Hzero | Hnonzero]; cbn; [| discriminate].
      intros [= <-]. right. split; [reflexivity | exact Hzero].
    + intros [= <-]. left. eexists. split; [reflexivity |].
      revert Hpassed. unfold Memory.verify_no_data_loss. cbn.
      destruct (List.filter _ _); [discriminate | discriminate].
  - left. exists result. split; [reflexivity |].
    apply (compaction_keeps_critical_items _ _ _ Hrun).
Qed.

(** When the verification passes and the compact memory counts zero
    tokens, the compression ratio divides by zero. *)
Lemma zero_size_compaction_divides_by_zero
    (working_memory : Memory.WorkingMemory) (target_tokens : Z) :
  Memory.dl_passed (verified working_memory (built working_memory)) = true ->
  Memory.compressed_size (built working_memory) = 0%Z ->
  compact working_memory target_tokens = raise ZeroDivisionError.
Proof.
  intros Hpassed Hzero. unfold Memory.compact_working_memory.
  rewrite Hpassed. cbn [negb]. unfold Memory.true_division.
  rewrite Hzero. reflexivity.
Qed.


End CompactionFacts.

(** ** Tool executor *)

Section ToolExecutorFacts.

Variable User : Type.
Variable MCPResult : Type.
Variable check_authorization :
  User -> ToolExec.ToolSpecification -> string -> ToolExec.AuthResult.
Variable get_consent :
  User -> ToolExec.ToolSpecification -> Parameters -> ToolExec.Consent.
Variable validate_parameters : Parameters -> string -> Raises Parameters.
Variable generate_cache_key :
  ToolExec.ToolSpecification -> Parameters -> string.
Variable call_tool : string -> Parameters -> Z -> string -> Raises MCPResult.
Variable verify_result :
  MCPResult -> ToolExec.ToolSpecification -> Raises ToolResult.

Local Abbreviation tool_executor :=
  (ToolExec.execute User MCPResult check_authorization get_consent
     validate_parameters generate_cache_key call_tool verify_result).

(** C10. A call of [execute] by a user who is not authorized raises
    [UnauthorizedError], and one by an authorized user who does not give
    a required consent raises [ConsentDeniedError], whatever the cache
    holds: the cache is left as it was and the only calls made are the
    authorization check and, for the second, the consent request. In
    every call, a cache read, a tool call or a cache write happens only
    after the authorization check, with the user authorized and, when
    the tool requires it, the consent granted. *)
Theorem C10_authorization_and_consent_come_first
    (tool_spec : ToolExec.ToolSpecification) (parameters : Parameters)
    (user : User) (st : ToolExec.ExecutorState) :
  let auth := check_authorization user tool_spec "execute" in
  let consent := get_consent user tool_spec parameters in
  let outcome := tool_executor tool_spec parameters user st in
  (ToolExec.authorized auth = false ->
     outcome
     = (raise (UnauthorizedError (ToolExec.auth_reason auth)),
        {| ToolExec.result_cache := ToolExec.result_cache st;
           ToolExec.log :=
             ToolExec.log st ++ [ToolExec.AuthorizationChecked] |}))
  /\ (ToolExec.authorized auth = true ->
      ToolExec.requires_consent tool_spec = true ->
      ToolExec.granted consent = false ->
      outcome
      = (raise ConsentDeniedError,
         {| ToolExec.result_cache := ToolExec.result_cache st;
            ToolExec.log :=
              ToolExec.log st
              ++ [ToolExec.AuthorizationChecked; ToolExec.ConsentAsked] |}))
  /\ (exists later,
        ToolExec.log (snd outcome)
        = ToolExec.log st ++ ToolExec.AuthorizationChecked :: later
        /\ (existsb ToolExec.cache_or_tool_event later = true ->
            ToolExec.authorized auth = true
            /\ (ToolExec.requires_consent tool_spec = true ->
                ToolExec.granted consent = true
                /\ exists rest, later = ToolExec.ConsentAsked :: rest))).
Proof.
  intros auth consent outcome. subst auth consent outcome.
  unfold ToolExec.execute, ToolExec.call_and_cache, ToolExec.cache_set,
    ToolExec.record_event, raise, ret.
  destruct (ToolExec.authorized (check_authorization user tool_spec "execute"))
    eqn:Hauth; cbn [negb].
  2: { split; [reflexivity |]. split; [discriminate |].
       exists []. cbn. split; [reflexivity | discriminate]. }
  split; [discriminate |].
  destruct (ToolExec.requires_consent tool_spec) eqn:Hreq;
    [destruct (ToolExec.granted (get_consent user tool_spec parameters))
       eqn:Hgranted |]; cbn [negb fst snd ToolExec.log ToolExec.result_cache].
  2: { split.
       - intros _ _ _. rewrite <- app_assoc. reflexivity.
       - exists [ToolExec.ConsentAsked]. cbn.
         rewrite <- app_assoc. split; [reflexivity | discriminate]. }
  all: split; [discriminate |].
  all: destruct (validate_parameters parameters
                   (ToolExec.parameter_schema tool_spec))
         as [e | validated_params]; cbn [snd ToolExec.log ToolExec.result_cache].
  all: try destruct (_ !! generate_cache_key tool_spec validated_params)
         as [cached |]; cbn [snd ToolExec.log ToolExec.result_cache].
  all: try destruct (call_tool _ _ _ _) as [e | mcp_result]; cbn [snd].
  all: try destruct (verify_result mcp_result tool_spec)
         as [e | verified_result]; cbn [snd].
  all: try destruct (ToolExec.cacheable tool_spec); cbn [snd].
  all: try destruct (ToolExec.is_MCPError e); cbn [snd].
  all: cbn [snd ToolExec.log ToolExec.result_cache];
    rewrite <- ?app_assoc; cbn [app];
    eexists; (split; [reflexivity |]);
    intros _; (split; [reflexivity |]);
    intros Hreq'; try discriminate Hreq';
    (split; [reflexivity | eexists; reflexivity]).
Qed.

End ToolExecutorFacts.

(** ** The properties on the instance *)

(** The plan of the instance for a lookup, a critical flaky call and a
    second lookup stops at the flaky call with two step results. *)
Lemma C5_critical_failure_aborts_plan_witness :
  exists result context,
    Demo.execute_plan
      (Demo.plan_of [("lookup", false); ("flaky", true); ("lookup", false)] [])
      []
    = ret (result, context)
    /\ er_status result = "FAILED"
    /\ length (er_steps result) = 2
    /\ Demo.trace context = ["lookup"; "flaky"].
Proof.
  edestruct
    (C5_critical_failure_aborts_plan Demo.Context string Demo.Output
       Demo.add_step_result Demo.get_tool Demo.tool_execute Demo.sequential
       Demo.aggregate_outputs
       (Demo.plan_of [("lookup", false); ("flaky", true); ("lookup", false)] [])
       [ {| tool_id := "lookup"; parameters := ∅;
            critical := false; parallel_safe := false |} ]
       [ {| tool_id := "lookup"; parameters := ∅;
            critical := false; parallel_safe := false |} ]
       {| tool_id := "flaky"; parameters := ∅;
          critical := true; parallel_safe := false |}
       [])
    as [Hrun Hlength];
    [ reflexivity | reflexivity | reflexivity | reflexivity | reflexivity
    | reflexivity | ].
  eexists. eexists. split; [exact Hrun |].
  split; [reflexivity |]. split; [exact Hlength | reflexivity].
Defined.

(** A task of one lookup is complete after the first iteration; the
    call of [AgentResponse] raises. *)
Lemma C6_complete_iteration_raises_type_error_witness :
  exists msg,
    Demo.execute_task [("lookup", false)]
    = raise (BuiltinError "TypeError" msg).
Proof.
  unfold Demo.execute_task, execute_task.
  change (seq 0 max_iterations) with (0 :: seq 1 9).
  eapply C6_complete_iteration_raises_type_error;
    [reflexivity | reflexivity].
Defined.

(** C7, as stated, fails: the tool ["broken"] raises a [KeyError], and the
    step that calls it does not end as a [StepResult]. *)
Lemma C7_key_error_is_not_converted :
  ~ converts_every_exception Demo.Context string
      Demo.get_tool Demo.tool_execute.
Proof.
  intros Hclaim.
  destruct (Hclaim {| tool_id := "broken"; parameters := ∅;
                      critical := false; parallel_safe := false |}
                   [] "broken" (BuiltinError "KeyError" "id")
                   eq_refl eq_refl)
    as (step_result & Hreturned & _).
  vm_compute in Hreturned. discriminate Hreturned.
Qed.

(** The [KeyError] of the tool leaves the orchestrator of the instance. *)
Lemma key_error_leaves_orchestrator :
  Demo.execute_task [("broken", false)]
  = raise (BuiltinError "KeyError" "id").
Proof. reflexivity. Qed.

(** The [ToolNotFoundError] of the lookup leaves it as well. *)
Lemma lookup_error_leaves_orchestrator :
  Demo.execute_task [("unknown", false)]
  = raise (ToolNotFoundError "Tool unknown not found").
Proof. reflexivity. Qed.

(** The [ToolExecutionError] of the tool ["flaky"] becomes a failed
    step result. *)
Lemma C7_tool_execution_error_becomes_failed_step_witness :
  exists step_result,
    Demo.sequential
      {| tool_id := "flaky"; parameters := ∅;
         critical := true; parallel_safe := false |} []
    = ret step_result
    /\ sr_status step_result = "FAILED"
    /\ sr_failure step_result = true
    /\ sr_error step_result = Some "tool failed".
Proof.
  eexists. split.
  - unfold Demo.sequential.
    rewrite (C7_tool_execution_error_becomes_failed_step Demo.Context string
               Demo.get_tool Demo.tool_execute
               {| tool_id := "flaky"; parameters := ∅;
                  critical := true; parallel_safe := false |}
               [] "flaky" (ToolExecutionError "tool failed")
               eq_refl eq_refl).
    reflexivity.
  - repeat split.
Defined.


(** A task whose critical step fails in every iteration runs the ten
    iterations; the call of [AgentResponse] after the loop raises. *)
Lemma C9_exhausted_loop_raises_type_error_witness :
  exists msg,
    Demo.execute_task [("lookup", false); ("flaky", true)]
    = raise (BuiltinError "TypeError" msg).
Proof.
  unfold Demo.execute_task.
  eapply C9_exhausted_loop_raises_type_error.
  unfold max_iterations. cbn [seq].
  repeat (eapply continues_cons;
          [reflexivity | reflexivity | reflexivity |]).
  apply continues_nil.
Defined.

(** An unauthorized user gets [UnauthorizedError] although the cache of
    the executor holds a result for the call; the cache is not read. *)
Lemma C10_authorization_and_consent_come_first_witness :
  Demo.tool_executor_execute (Demo.fetch_spec false) ∅ "bob" Demo.warm_state
  = (raise (UnauthorizedError "not allowed"),
     {| ToolExec.result_cache := {[ "fetch" := Demo.cached_fetch ]};
        ToolExec.log := [ToolExec.AuthorizationChecked] |})
  /\ Demo.tool_executor_execute (Demo.fetch_spec true) ∅ "alice"
       Demo.warm_state
     = (raise ConsentDeniedError,
        {| ToolExec.result_cache := {[ "fetch" := Demo.cached_fetch ]};
           ToolExec.log :=
             [ToolExec.AuthorizationChecked; ToolExec.ConsentAsked] |}).
Proof.
  split.
  - apply (C10_authorization_and_consent_come_first string string
             Demo.check_authorization
             (fun _ _ _ => {| ToolExec.granted := false |})
             (fun params _ => ret params)
             (fun tool_spec _ => ToolExec.spec_id tool_spec)
             (fun endpoint _ _ _ => ret endpoint)
             (fun mcp_result tool_spec =>
                ret {| tr_status := "SUCCESS"; tr_data := Some mcp_result;
                       tr_error := None;
                       tr_tool_id := ToolExec.spec_id tool_spec;
                       tr_duration := None |})
             (Demo.fetch_spec false) ∅ "bob" Demo.warm_state).
    reflexivity.
  - apply (C10_authorization_and_consent_come_first string string
             Demo.check_authorization
             (fun _ _ _ => {| ToolExec.granted := false |})
             (fun params _ => ret params)
             (fun tool_spec _ => ToolExec.spec_id tool_spec)
             (fun endpoint _ _ _ => ret endpoint)
             (fun mcp_result tool_spec =>
                ret {| tr_status := "SUCCESS"; tr_data := Some mcp_result;
                       tr_error := None;
                       tr_tool_id := ToolExec.spec_id tool_spec;
                       tr_duration := None |})
             (Demo.fetch_spec true) ∅ "alice" Demo.warm_state);
      reflexivity.
Defined.


(** * Further properties of the runtime *)

(** ** Executor: the result of a plan *)

Section ExecutorResults.

Variable ExecutionContext : Type.
Variable Tool : Type.
Variable Output : Type.
Variable add_step_result : ExecutionContext -> StepResult -> ExecutionContext.
Variable get_tool : string -> Raises Tool.
Variable tool_execute :
  Tool -> Parameters -> ExecutionContext -> Raises ToolResult.
Variable execute_parallel : PlanStep -> ExecutionContext -> Raises StepResult.
Variable aggregate_outputs : list StepResult -> Output.

Local Abbreviation step_runner :=
  (run_step ExecutionContext Tool get_tool tool_execute execute_parallel).
Local Abbreviation steps_loop :=
  (execute_steps ExecutionContext Tool Output add_step_result get_tool
     tool_execute execute_parallel aggregate_outputs).
Local Abbreviation plan_executor :=
  (execute_plan ExecutionContext Tool Output add_step_result get_tool
     tool_execute execute_parallel aggregate_outputs).

(** What the loop returns, from any point of the plan: the results so
    far followed by the new ones, at most one for each step left; all of
    them on SUCCESS, and on FAILED a last one with the failure flag, whose
    error is the failure reason. The context has taken the new results in
    their order. *)
Lemma execute_steps_shape (todo : list PlanStep) :
  forall results context result context',
    steps_loop todo results context = ret (result, context') ->
    exists new,
      er_steps result = results ++ new
      /\ length new <= length todo
      /\ context' = fold_left add_step_result new context
      /\ ((er_status result = "SUCCESS"
           /\ length new = length todo
           /\ er_failure_reason result = None
           /\ er_output result = Some (aggregate_outputs (er_steps result)))
          \/ (er_status result = "FAILED"
              /\ er_output result = None
              /\ exists earlier last,
                   new = earlier ++ [last]
                   /\ sr_failure last = true
                   /\ er_failure_reason result = sr_error last)).
Proof.
  induction todo as [| step rest IH]; intros results context result context'.
  - cbn. intros [= <- <-]. exists []. cbn. rewrite app_nil_r.
    repeat split; try lia. left. repeat split.
  - cbn [execute_steps].
    destruct (step_runner step context) as [e | step_result];
      [discriminate |].
    destruct (sr_failure step_result && critical step) eqn:Habort.
    + intros [= <- <-]. exists [step_result]. cbn.
      repeat split; try lia. right. repeat split.
      exists [], step_result. repeat split.
      apply andb_prop in Habort. tauto.
    + intros Hrun. apply IH in Hrun as (new & Hsteps & Hlen & Hctx & Hcases).
      exists (step_result :: new). rewrite Hsteps, <- app_assoc. cbn.
      repeat split; [lia | exact Hctx |].
      destruct Hcases as [(Hs & Hl & Hr & Ho) | (Hs & Ho & earlier & last & Hn & Hf & Hr)].
      * left. rewrite Hsteps, <- app_assoc in Ho. cbn in Ho.
        repeat split; [exact Hs | lia | exact Hr | exact Ho].
      * right. repeat split; [exact Hs | exact Ho |].
        exists (step_result :: earlier), last. rewrite Hn.
        repeat split; assumption.
Qed.

(** X1. [execute_plan] returns SUCCESS or FAILED. On SUCCESS the result
    holds one step result for each step of the plan and the aggregated
    output; on FAILED it holds no output, at least one and at most as
    many step results as the plan has steps, and its failure reason is
    the error of the last of them, whose failure flag is set. *)
Theorem execute_plan_result_shape (plan : Plan) (context context' : ExecutionContext)
    (result : ExecutionResult Output) :
  plan_executor plan context = ret (result, context') ->
  (er_status result = "SUCCESS"
   /\ length (er_steps result) = length (steps plan)
   /\ er_failure_reason result = None
   /\ er_output result = Some (aggregate_outputs (er_steps result)))
  \/ (er_status result = "FAILED"
      /\ er_output result = None
      /\ 1 <= length (er_steps result) <= length (steps plan)
      /\ exists earlier last,
           er_steps result = earlier ++ [last]
           /\ sr_failure last = true
           /\ er_failure_reason result = sr_error last).
Proof.
  unfold execute_plan. intros Hrun.
  apply execute_steps_shape in Hrun
    as (new & Hsteps & Hlen & _ & Hcases).
  cbn in Hsteps. rewrite Hsteps.
  destruct Hcases as [(Hs & Hl & Hr & Ho) | (Hs & Ho & earlier & last & Hn & Hf & Hr)].
  - left. rewrite Hsteps in Ho. auto.
  - right. repeat split; [exact Hs | exact Ho | | exact Hlen |].
    + rewrite Hn, length_app. cbn. lia.
    + exists earlier, last. auto.
Qed.

(** X2. The context [execute_plan] leaves is the context it was given
    with the step results of the returned [ExecutionResult] added in
    their order: every result returned was recorded, and nothing else
    was. *)
Theorem execute_plan_records_results (plan : Plan)
    (context context' : ExecutionContext) (result : ExecutionResult Output) :
  plan_executor plan context = ret (result, context') ->
  context' = fold_left add_step_result (er_steps result) context.
Proof.
  unfold execute_plan. intros Hrun.
  apply execute_steps_shape in Hrun as (new & Hsteps & _ & Hctx & _).
  cbn in Hsteps. rewrite Hsteps. exact Hctx.
Qed.

(** A loop over steps none of which is critical does not abort. *)
Lemma execute_steps_no_critical (todo : list PlanStep) :
  Forall (fun step => critical step = false) todo ->
  forall results context result context',
    steps_loop todo results context = ret (result, context') ->
    er_status result = "SUCCESS".
Proof.
  induction 1 as [| step rest Hstep _ IH];
    intros results context result context'.
  - cbn. intros [= <- <-]. reflexivity.
  - cbn [execute_steps].
    destruct (step_runner step context) as [e | step_result];
      [discriminate |].
    rewrite Hstep, andb_false_r. apply IH.
Qed.

(** X3. A plan without a critical step never ends FAILED: whatever its
    steps return, failed or not, a returned result has status SUCCESS
    and one step result for each step. *)
Theorem plan_without_critical_step_succeeds (plan : Plan)
    (context context' : ExecutionContext) (result : ExecutionResult Output) :
  Forall (fun step => critical step = false) (steps plan) ->
  plan_executor plan context = ret (result, context') ->
  er_status result = "SUCCESS"
  /\ length (er_steps result) = length (steps plan).
Proof.
  intros Hnone Hrun.
  assert (Hok : er_status result = "SUCCESS").
  { unfold execute_plan in Hrun.
    exact (execute_steps_no_critical _ Hnone _ _ _ _ Hrun). }
  split; [exact Hok |].
  unfold execute_plan in Hrun.
  apply execute_steps_shape in Hrun as (new & Hsteps & _ & _ & Hcases).
  cbn in Hsteps. rewrite Hsteps.
  destruct Hcases as [(_ & Hl & _) | (Hs & _)]; [exact Hl |].
  rewrite Hok in Hs. discriminate Hs.
Qed.

(** The loop after steps that ran through (as [execute_steps_app], on
    the definitions). *)
Lemma execute_steps_after (done : list PlanStep) :
  forall results context result context' todo,
    steps_loop done results context = ret (result, context') ->
    er_status result = "SUCCESS" ->
    steps_loop (done ++ todo) results context
    = steps_loop todo (er_steps result) context'.
Proof.
  induction done as [| step rest IH];
    intros results context result context' todo.
  - cbn. intros [= <- <-] _. reflexivity.
  - rewrite <- app_comm_cons. cbn [execute_steps].
    destruct (step_runner step context) as [e | step_result];
      [discriminate |].
    destruct (sr_failure step_result && critical step).
    + intros [= <- <-]. cbn. discriminate.
    + apply IH.
Qed.

(** X4. An exception that leaves a step in the middle of a plan leaves
    [execute_plan]: the results of the steps that ran before it are not
    returned. *)
Theorem exception_in_plan_propagates (plan : Plan)
    (done remaining : list PlanStep) (step : PlanStep)
    (context context1 : ExecutionContext)
    (result1 : ExecutionResult Output) (e : Exception) :
  steps plan = done ++ step :: remaining ->
  steps_loop done [] context = ret (result1, context1) ->
  er_status result1 = "SUCCESS" ->
  step_runner step context1 = raise e ->
  plan_executor plan context = raise e.
Proof.
  intros Hsteps Hdone Hok Hraise. unfold execute_plan.
  rewrite Hsteps, (execute_steps_after done _ _ _ _ _ Hdone Hok).
  cbn [execute_steps]. rewrite Hraise. reflexivity.
Qed.

End ExecutorResults.

(** ** Orchestrator: how the loop ends *)

Section OrchestratorEndings.

Variable Task : Type.
Variable ExecutionContext : Type.
Variable GatheredContext : Type.
Variable Output : Type.
Variable Trace : Type.
Variable initial_context : Task -> ExecutionContext.
Variable gather_context : ExecutionContext -> GatheredContext.
Variable create_initial_plan : Task -> GatheredContext -> Plan.
Variable adapt_plan : Task -> GatheredContext -> Plan.
Variable executor_execute_plan :
  Plan -> ExecutionContext ->
  Raises (ExecutionResult Output * ExecutionContext).
Variable verifier_verify :
  ExecutionResult Output -> Plan -> ExecutionContext -> VerificationResult.
Variable escalation_reason : VerificationResult -> string.
Variable update_from_verification :
  ExecutionContext -> VerificationResult -> ExecutionContext.
Variable trace : ExecutionContext -> Trace.

Local Abbreviation iteration_of :=
  (run_iteration Task ExecutionContext GatheredContext Output
     gather_context create_initial_plan adapt_plan executor_execute_plan
     verifier_verify).
Local Abbreviation loop :=
  (agent_loop Task ExecutionContext GatheredContext Output Trace
     gather_context create_initial_plan adapt_plan executor_execute_plan
     verifier_verify escalation_reason update_from_verification trace).
Local Abbreviation task_executor :=
  (execute_task Task ExecutionContext GatheredContext Output Trace
     initial_context gather_context create_initial_plan adapt_plan
     executor_execute_plan verifier_verify escalation_reason
     update_from_verification trace).
Local Abbreviation all_continue :=
  (continues Task ExecutionContext GatheredContext Output
     gather_context create_initial_plan adapt_plan executor_execute_plan
     verifier_verify update_from_verification).

(** Iterations that all go on hand the loop over to the next one. *)
Lemma loop_after_continuing (task : Task) (iterations : list nat)
    (context context' : ExecutionContext) :
  all_continue task iterations context context' ->
  forall later,
    loop task (iterations ++ later) context = loop task later context'.
Proof.
  induction 1 as [context | iteration rest context execution_result
                    verification context1 context' Hrun Hcomplete
                    Hescalate _ IH];
    intros later.
  - reflexivity.
  - rewrite <- app_comm_cons. cbn [agent_loop]. rewrite Hrun.
    unfold ret at 1. rewrite Hcomplete, Hescalate. apply IH.
Qed.

(** X5. After any number of iterations that went on, an iteration whose
    verification is not complete and asks for escalation ends the loop,
    and the iterations left are not run: the orchestrator calls
    [AgentResponse] with the status ESCALATED, the escalation reason of
    that verification and the trace of that iteration's context. The
    class has no field [reason], the call raises [TypeError], and no
    response is returned. *)
Theorem escalation_raises_type_error (task : Task) (before rest : list nat)
    (iteration : nat) (context context0 context1 : ExecutionContext)
    (execution_result : ExecutionResult Output)
    (verification : VerificationResult) :
  all_continue task before context context0 ->
  iteration_of task context0 iteration
    = ret (execution_result, verification, context1) ->
  vr_complete verification = false ->
  vr_should_escalate verification = true ->
  let keywords :=
    escalated_keywords ExecutionContext Output Trace escalation_reason
      trace verification context1 in
  loop task (before ++ iteration :: rest) context
  = new_agent_response keywords
  /\ kw_status keywords = Some "ESCALATED"
  /\ kw_reason keywords = Some (escalation_reason verification)
  /\ kw_trace keywords = Some (trace context1)
  /\ exists msg,
       loop task (before ++ iteration :: rest) context
       = raise (BuiltinError "TypeError" msg).
Proof.
  intros Hbefore Hrun Hcomplete Hescalate keywords.
  assert (Hloop : loop task (before ++ iteration :: rest) context
                  = new_agent_response keywords).
  { rewrite (loop_after_continuing _ _ _ _ Hbefore).
    cbn [agent_loop]. rewrite Hrun. unfold ret at 1.
    rewrite Hcomplete, Hescalate. reflexivity. }
  rewrite Hloop. repeat split.
  eexists. reflexivity.
Qed.

(** X6. After any number of iterations that went on, an exception that
    leaves the executor leaves the loop: no response is returned, and
    the trace built so far is not handed out. *)
Theorem executor_exception_leaves_loop (task : Task) (before rest : list nat)
    (iteration : nat) (context context0 : ExecutionContext) (e : Exception) :
  all_continue task before context context0 ->
  executor_execute_plan
    (create_plan Task GatheredContext create_initial_plan adapt_plan
       task (gather_context context0) iteration)
    context0
  = raise e ->
  loop task (before ++ iteration :: rest) context = raise e.
Proof.
  intros Hbefore Hraise.
  rewrite (loop_after_continuing _ _ _ _ Hbefore).
  cbn [agent_loop]. unfold run_iteration. rewrite Hraise. reflexivity.
Qed.

(** The loop returns no response, whatever iterations it is given: each
    of its three returns calls [AgentResponse] without [task_id]. *)
Lemma loop_raises (task : Task) (iterations : list nat) :
  forall context, exists e, loop task iterations context = raise e.
Proof.
  induction iterations as [| iteration rest IH]; intros context.
  - cbn [agent_loop]. eexists. reflexivity.
  - cbn [agent_loop].
    destruct (iteration_of task context iteration)
      as [e | [[execution_result verification] context1]].
    + exists e. reflexivity.
    + destruct (vr_complete verification).
      * eexists. reflexivity.
      * destruct (vr_should_escalate verification).
        -- eexists. reflexivity.
        -- apply IH.
Qed.

(** X7. [execute_task] returns no response: every call of it ends with
    an exception, that of an iteration or the [TypeError] of the call of
    [AgentResponse] that was to build the response. *)
Theorem execute_task_returns_no_response (task : Task) :
  (exists e, task_executor task = raise e)
  /\ forall response : AgentResponse Output Trace,
       task_executor task <> ret response.
Proof.
  unfold execute_task.
  destruct (loop_raises task (seq 0 max_iterations) (initial_context task))
    as [e He].
  split.
  - exists e. exact He.
  - intros response Hreturned. rewrite He in Hreturned.
    discriminate Hreturned.
Qed.

End OrchestratorEndings.

(** ** Self-verifier: the three verdicts *)

(** No check of a list in which every check passed is a failed critical
    one. *)
Lemma all_passed_none_critical (checks : list Check) :
  forallb passed checks = true ->
  existsb (fun check => failed check && critical_check check) checks = false.
Proof.
  induction checks as [| check rest IH]; cbn; [reflexivity |].
  intros Hall. apply andb_prop in Hall as [Hpassed Hrest].
  unfold failed at 1. rewrite Hpassed. cbn. apply IH. exact Hrest.
Qed.

Section SelfVerifierVerdicts.

Variable ExecutionContext : Type.
Variable Output : Type.
Variable check_policy_compliance :
  ExecutionResult Output -> ExecutionContext -> Check.
Variable check_completeness :
  ExecutionResult Output -> list string -> Check.
Variable check_consistency :
  ExecutionResult Output -> ExecutionContext -> Check.
Variable check_quality :
  ExecutionResult Output -> ExecutionContext -> Check.
Variable assess_confidence :
  ExecutionResult Output -> ExecutionContext -> Check.
Variable check_safety :
  ExecutionResult Output -> ExecutionContext -> Check.
Variable extract_issues : list Check -> list string.

Local Abbreviation verifier :=
  (verify ExecutionContext Output check_policy_compliance
     check_completeness check_consistency check_quality assess_confidence
     check_safety extract_issues).

(** X8. A verdict is never both complete and escalating: a complete
    verdict has passed, and a verdict that passed does not ask for
    escalation. The order in which the orchestrator tests the two flags
    has no effect on what it does with a verdict of [verify]. *)
Theorem complete_excludes_escalation (result : ExecutionResult Output)
    (plan : Plan) (context : ExecutionContext) :
  let verdict := verifier result plan context in
  vr_complete verdict && negb (vr_passed verdict) = false
  /\ vr_passed verdict && vr_should_escalate verdict = false
  /\ vr_complete verdict && vr_should_escalate verdict = false.
Proof.
  intros verdict. subst verdict. unfold verify.
  cbn [vr_passed vr_complete vr_should_escalate].
  set (checks := run_checks _ _ _ _ _ _ _ _ _ _ _).
  pose proof (all_passed_none_critical checks) as Hnone.
  destruct (forallb passed checks); cbn [andb negb].
  - rewrite Hnone by reflexivity. rewrite andb_false_r. auto.
  - auto.
Qed.

(** X9. The verdict sends the orchestrator to the next iteration
    (neither complete nor escalating) exactly when no failed check is
    critical and either some check failed or the plan has more steps. *)
Theorem verdict_continues_iff (result : ExecutionResult Output)
    (plan : Plan) (context : ExecutionContext) :
  let verdict := verifier result plan context in
  (vr_complete verdict = false /\ vr_should_escalate verdict = false)
  <->
  ((forall check,
       In check (vr_checks verdict) ->
       passed check = false -> critical_check check = false)
   /\ (has_more_steps plan = true
       \/ exists check, In check (vr_checks verdict) /\ passed check = false)).
Proof.
  intros verdict. subst verdict. unfold verify.
  cbn [vr_complete vr_should_escalate vr_checks].
  set (checks := run_checks _ _ _ _ _ _ _ _ _ _ _).
  split.
  - intros [Hcomplete Hescalate]. split.
    + intros check Hin Hfailed.
      destruct (critical_check check) eqn:Hcritical; [| reflexivity].
      assert (Hex : existsb (fun c => failed c && critical_check c) checks
                    = true).
      { apply existsb_exists. exists check. split; [exact Hin |].
        unfold failed. rewrite Hfailed, Hcritical. reflexivity. }
      rewrite Hex in Hescalate. discriminate Hescalate.
    + destruct (has_more_steps plan); [left; reflexivity | right].
      rewrite andb_true_r in Hcomplete.
      assert (Hnot : ~ forallb passed checks = true)
        by (rewrite Hcomplete; discriminate).
      rewrite forallb_forall in Hnot.
      destruct (existsb (fun c => negb (passed c)) checks) eqn:Hex.
      * apply existsb_exists in Hex as (check & Hin & Hneg).
        exists check. split; [exact Hin |].
        apply negb_true_iff. exact Hneg.
      * exfalso. apply Hnot. intros check Hin.
        destruct (passed check) eqn:Hp; [reflexivity |].
        assert (Hex' : existsb (fun c => negb (passed c)) checks = true).
        { apply existsb_exists. exists check. rewrite Hp. auto. }
        rewrite Hex in Hex'. discriminate Hex'.
  - intros [Hnone Hmore]. split.
    + destruct Hmore as [Hmore | (check & Hin & Hfailed)].
      * rewrite Hmore. apply andb_false_r.
      * apply andb_false_intro1.
        destruct (forallb passed checks) eqn:Hall; [| reflexivity].
        rewrite forallb_forall in Hall. rewrite (Hall _ Hin) in Hfailed.
        discriminate Hfailed.
    + destruct (existsb _ checks) eqn:Hex; [| reflexivity].
      apply existsb_exists in Hex as (check & Hin & Hcrit).
      apply andb_prop in Hcrit as [Hfailed Hcritical].
      unfold failed in Hfailed. apply negb_true_iff in Hfailed.
      rewrite (Hnone _ Hin Hfailed) in Hcritical. discriminate Hcritical.
Qed.

End SelfVerifierVerdicts.

(** ** Context budget manager: release, unknown categories *)

(** X10. [release] never leaves a negative usage, whatever amount is
    released; and on a manager whose usage is not negative, releasing
    what was just allocated gives the manager back as it was. *)
Theorem release_undoes_allocate (self : Budget.ContextBudgetManager)
    (category : string) (amount released : Z) :
  (0 <= Budget.used self)%Z ->
  (0 <= Budget.used (Budget.release self category released))%Z
  /\ Budget.release (Budget.allocate self category amount) category amount
     = self.
Proof.
  intros Hused. split.
  - cbn. apply Z.le_max_l.
  - destruct self as [total allocations used]. cbn in *.
    unfold Budget.release, Budget.allocate. cbn. f_equal. lia.
Qed.

(** X11. A category the manager does not know has an allocation of
    zero: a request for it is answered OVER_ALLOCATION exactly when it
    asks for a positive number of tokens, whatever the usage. *)
Theorem unknown_category_is_over_allocation
    (self : Budget.ContextBudgetManager) (category : string) (requested : Z) :
  Budget.allocations self !! category = None ->
  (Budget.status (Budget.check_budget self category requested)
   = "OVER_ALLOCATION"
   <-> (0 < requested)%Z).
Proof.
  intros Hunknown. unfold Budget.check_budget. rewrite Hunknown. cbn.
  destruct (Z.ltb_spec 0 requested) as [Hpos | Hnonpos].
  - cbn. split; [intros _; exact Hpos | reflexivity].
  - destruct (Budget.above_80_percent _ _); cbn;
      (split; [discriminate | lia]).
Qed.

(** X12. On a manager with the total budget of the constructor, 200000
    tokens, a write is safe once approved: when [check_budget] answers
    APPROVED and the approved amount is allocated, the usage is at most
    160000 tokens, 80% of the total budget, and so within the ceiling. *)
Theorem approved_write_stays_within_ceiling
    (self : Budget.ContextBudgetManager) (category : string) (requested : Z) :
  Budget.total_budget self = 200000%Z ->
  Budget.status (Budget.check_budget self category requested) = "APPROVED" ->
  (Budget.used (Budget.allocate self category requested) <= 160000)%Z
  /\ (Budget.used (Budget.allocate self category requested)
      <= Budget.total_budget (Budget.allocate self category requested))%Z.
Proof.
  intros Htotal. unfold Budget.check_budget, Budget.above_80_percent. cbn.
  rewrite Htotal.
  destruct (Z.ltb_spec (default 0%Z (Budget.allocations self !! category))
                       requested); [discriminate |].
  destruct (Z.ltb_spec (8 * 200000) (10 * (Budget.used self + requested)));
    [discriminate | intros _; lia].
Qed.

(** ** Compaction: what a returned result is *)

Section CompactionResults.

Variable count_conversation_tokens : list string -> Z.
Variable count_task_state_tokens : gmap string string -> Z.
Variable count_tool_results_tokens : gmap string Memory.CachedResult -> Z.
Variable count_conclusions_tokens : list string -> Z.
Variable critical_items : Memory.WorkingMemory -> list string.
Variable extract_critical_data : Memory.WorkingMemory -> list string.
Variable summarize_conversation : list string -> Z -> string.
Variable compress_tool_results : gmap string Memory.CachedResult -> string.
Variable count_compact_tokens : list string -> string -> string -> Z.

Local Abbreviation compact :=
  (Memory.compact_working_memory count_conversation_tokens
     count_task_state_tokens count_tool_results_tokens
     count_conclusions_tokens critical_items extract_critical_data
     summarize_conversation compress_tool_results count_compact_tokens).
Local Abbreviation token_count :=
  (Memory.count_tokens count_conversation_tokens count_task_state_tokens
     count_tool_results_tokens count_conclusions_tokens).

(** X13. A result of [compact_working_memory] carries the critical data
    as [_extract_critical_data] gave them, the token count of the working
    memory as original size, a compressed size that is not zero, and the
    quotient of the two sizes as compression ratio. The target size has
    no part in it: the call gives the same outcome for every
    [target_tokens]. *)
Theorem compaction_result_shape (working_memory : Memory.WorkingMemory)
    (target_tokens other_target : Z) (result : Memory.CompactionResult) :
  compact working_memory target_tokens = ret result ->
  Memory.critical_data (Memory.compact_memory result)
  = extract_critical_data working_memory
  /\ Memory.original_size (Memory.compact_memory result)
     = token_count working_memory
  /\ Memory.compressed_size (Memory.compact_memory result) <> 0%Z
  /\ Memory.compression_ratio result
     = (inject_Z (Memory.original_size (Memory.compact_memory result))
        / inject_Z (Memory.compressed_size (Memory.compact_memory result)))%Q
  /\ compact working_memory other_target = ret result.
Proof.
  unfold Memory.compact_working_memory.
  destruct (Memory.dl_passed _); cbn [negb]; [| discriminate].
  unfold Memory.true_division.
  destruct (Z.eqb_spec
              (Memory.compressed_size
                 (Memory.build_compact_memory count_conversation_tokens
                    count_task_state_tokens count_tool_results_tokens
                    count_conclusions_tokens extract_critical_data
                    summarize_conversation compress_tool_results
                    count_compact_tokens working_memory)) 0)
    as [Hzero | Hnonzero]; cbn; [discriminate |].
  intros [= <-]. cbn. repeat split. exact Hnonzero.
Qed.

End CompactionResults.

(** ** Tool executor: the result cache *)

Section ToolExecutorCache.

Variable User : Type.
Variable MCPResult : Type.
Variable check_authorization :
  User -> ToolExec.ToolSpecification -> string -> ToolExec.AuthResult.
Variable get_consent :
  User -> ToolExec.ToolSpecification -> Parameters -> ToolExec.Consent.
Variable validate_parameters : Parameters -> string -> Raises Parameters.
Variable generate_cache_key :
  ToolExec.ToolSpecification -> Parameters -> string.
Variable call_tool : string -> Parameters -> Z -> string -> Raises MCPResult.
Variable verify_result :
  MCPResult -> ToolExec.ToolSpecification -> Raises ToolResult.

Local Abbreviation tool_executor :=
  (ToolExec.execute User MCPResult check_authorization get_consent
     validate_parameters generate_cache_key call_tool verify_result).

(** A call that is permitted and whose parameters are valid reaches the
    lookup in the cache. *)
Lemma execute_reaches_cache (tool_spec : ToolExec.ToolSpecification)
    (parameters validated_params : Parameters) (user : User)
    (st : ToolExec.ExecutorState) :
  ToolExec.authorized (check_authorization user tool_spec "execute") = true ->
  (ToolExec.requires_consent tool_spec = true ->
   ToolExec.granted (get_consent user tool_spec parameters) = true) ->
  validate_parameters parameters (ToolExec.parameter_schema tool_spec)
    = ret validated_params ->
  tool_executor tool_spec parameters user st
  = let cache_key := generate_cache_key tool_spec validated_params in
    let st1 :=
      {| ToolExec.result_cache := ToolExec.result_cache st;
         ToolExec.log :=
           ToolExec.log st ++ checks_made tool_spec
           ++ [ToolExec.CacheRead cache_key] |} in
    match ToolExec.result_cache st !! cache_key with
    | Some cached => (ret cached, st1)
    | None =>
        match ToolExec.call_and_cache MCPResult call_tool verify_result
                tool_spec validated_params
                (check_authorization user tool_spec "execute")
                cache_key st1 with
        | (inl e, st2) =>
            if ToolExec.is_MCPError e then
              (ret {| tr_status := "FAILED";
                      tr_data := None;
                      tr_error := Some (str_of_exception e);
                      tr_tool_id := ToolExec.spec_id tool_spec;
                      tr_duration := None |}, st2)
            else (raise e, st2)
        | (inr result, st2) => (ret result, st2)
        end
    end.
Proof.
  intros Hauth Hconsent Hvalid. unfold ToolExec.execute, checks_made.
  rewrite Hauth. cbn [negb].
  destruct (ToolExec.requires_consent tool_spec).
  - rewrite (Hconsent eq_refl). cbn [negb]. rewrite Hvalid.
    unfold ret at 1, ToolExec.record_event.
    cbn [ToolExec.result_cache ToolExec.log].
    rewrite <- !app_assoc. reflexivity.
  - rewrite Hvalid. unfold ret at 1, ToolExec.record_event.
    cbn [ToolExec.result_cache ToolExec.log].
    rewrite <- !app_assoc. reflexivity.
Qed.

(** X14. A permitted call whose result is in the cache returns the
    cached result: the tool is not called, the result is not verified
    again, and the cache stays as it was; the only calls made are the
    checks and the read of the cache. *)
Theorem cache_hit_skips_tool (tool_spec : ToolExec.ToolSpecification)
    (parameters validated_params : Parameters) (user : User)
    (st : ToolExec.ExecutorState) (cached : ToolResult) :
  ToolExec.authorized (check_authorization user tool_spec "execute") = true ->
  (ToolExec.requires_consent tool_spec = true ->
   ToolExec.granted (get_consent user tool_spec parameters) = true) ->
  validate_parameters parameters (ToolExec.parameter_schema tool_spec)
    = ret validated_params ->
  ToolExec.result_cache st !! generate_cache_key tool_spec validated_params
    = Some cached ->
  tool_executor tool_spec parameters user st
  = (ret cached,
     {| ToolExec.result_cache := ToolExec.result_cache st;
        ToolExec.log :=
          ToolExec.log st ++ checks_made tool_spec
          ++ [ToolExec.CacheRead
                (generate_cache_key tool_spec validated_params)] |}).
Proof.
  intros Hauth Hconsent Hvalid Hcached.
  rewrite (execute_reaches_cache _ _ _ _ _ Hauth Hconsent Hvalid).
  cbn zeta. rewrite Hcached. reflexivity.
Qed.

(** X16. The cache after a call of [execute] is the cache before it, or
    the cache before it with the returned result stored under the key of
    the call: this happens for a cacheable tool only, under a key the
    cache did not hold, and with a result the tool call gave and the
    verification accepted. A call that raises, and a call of a tool that
    is not cacheable, leave the cache as it was. *)
Theorem cache_changes_by_verified_result_only
    (tool_spec : ToolExec.ToolSpecification) (parameters : Parameters)
    (user : User) (st : ToolExec.ExecutorState) :
  let outcome := tool_executor tool_spec parameters user st in
  ToolExec.result_cache (snd outcome) = ToolExec.result_cache st
  \/ (ToolExec.cacheable tool_spec = true
      /\ exists validated_params mcp_result verified_result,
           validate_parameters parameters
             (ToolExec.parameter_schema tool_spec) = ret validated_params
           /\ ToolExec.result_cache st
                !! generate_cache_key tool_spec validated_params = None
           /\ call_tool (ToolExec.mcp_endpoint tool_spec) validated_params
                (ToolExec.sla_timeout tool_spec)
                (ToolExec.credentials
                   (check_authorization user tool_spec "execute"))
              = ret mcp_result
           /\ verify_result mcp_result tool_spec = ret verified_result
           /\ fst outcome = ret verified_result
           /\ ToolExec.result_cache (snd outcome)
              = <[generate_cache_key tool_spec validated_params
                  := verified_result]> (ToolExec.result_cache st)).
Proof.
  intros outcome. subst outcome.
  unfold ToolExec.execute, ToolExec.call_and_cache, ToolExec.cache_set,
    ToolExec.record_event, raise, ret.
  destruct (ToolExec.authorized _); cbn [negb]; [| left; reflexivity].
  destruct (ToolExec.requires_consent tool_spec);
    [destruct (ToolExec.granted _) |]; cbn [negb];
    try (left; reflexivity).
  all: destruct (validate_parameters parameters
                   (ToolExec.parameter_schema tool_spec))
         as [e | validated_params] eqn:Hvalid;
    [left; reflexivity |].
  all: cbn [ToolExec.result_cache ToolExec.log].
  all: destruct (ToolExec.result_cache st
                   !! generate_cache_key tool_spec validated_params)
         as [cached |] eqn:Hlookup; [left; reflexivity |].
  all: destruct (call_tool _ _ _ _) as [e | mcp_result] eqn:Hcall;
    [destruct (ToolExec.is_MCPError e); left; reflexivity |].
  all: destruct (verify_result mcp_result tool_spec)
         as [e | verified_result] eqn:Hverify;
    [destruct (ToolExec.is_MCPError e); left; reflexivity |].
  all: destruct (ToolExec.cacheable tool_spec) eqn:Hcacheable;
    [| left; reflexivity].
  all: right; split; [reflexivity |];
    exists validated_params, mcp_result, verified_result;
    repeat split; assumption.
Qed.

(** X17. When the tool call or the verification of its result raises in
    a permitted call that missed the cache, an [MCPError] becomes a
    returned [ToolResult] of status FAILED with the text of the error and
    the id of the tool; an exception of another class, such as a
    [ToolVerificationError], leaves [execute]. In both cases nothing is
    written to the cache. *)
Theorem failed_call_is_reported_not_cached
    (tool_spec : ToolExec.ToolSpecification)
    (parameters validated_params : Parameters) (user : User)
    (st : ToolExec.ExecutorState) (e : Exception) :
  ToolExec.authorized (check_authorization user tool_spec "execute") = true ->
  (ToolExec.requires_consent tool_spec = true ->
   ToolExec.granted (get_consent user tool_spec parameters) = true) ->
  validate_parameters parameters (ToolExec.parameter_schema tool_spec)
    = ret validated_params ->
  ToolExec.result_cache st !! generate_cache_key tool_spec validated_params
    = None ->
  (call_tool (ToolExec.mcp_endpoint tool_spec) validated_params
             (ToolExec.sla_timeout tool_spec)
             (ToolExec.credentials
                (check_authorization user tool_spec "execute"))
   = raise e
   \/ exists mcp_result,
        call_tool (ToolExec.mcp_endpoint tool_spec) validated_params
                  (ToolExec.sla_timeout tool_spec)
                  (ToolExec.credentials
                     (check_authorization user tool_spec "execute"))
        = ret mcp_result
        /\ verify_result mcp_result tool_spec = raise e) ->
  fst (tool_executor tool_spec parameters user st)
  = (if ToolExec.is_MCPError e then
       ret {| tr_status := "FAILED";
              tr_data := None;
              tr_error := Some (str_of_exception e);
              tr_tool_id := ToolExec.spec_id tool_spec;
              tr_duration := None |}
     else raise e)
  /\ ToolExec.result_cache (snd (tool_executor tool_spec parameters user st))
     = ToolExec.result_cache st.
Proof.
  intros Hauth Hconsent Hvalid Hmiss Hfails.
  rewrite (execute_reaches_cache _ _ _ _ _ Hauth Hconsent Hvalid).
  cbn zeta. rewrite Hmiss.
  unfold ToolExec.call_and_cache, raise, ret in *.
  destruct Hfails as [Hcall | (mcp_result & Hcall & Hverify)].
  - rewrite Hcall.
    destruct (ToolExec.is_MCPError e); split; reflexivity.
  - rewrite Hcall, Hverify.
    destruct (ToolExec.is_MCPError e); split; reflexivity.
Qed.

End ToolExecutorCache.

(** ** Tool registry *)

Section ToolRegistryFacts.

Variable Backend : Type.
Variable SearchCriteria : Type.
Variable backend_get : Backend -> string -> option ToolExec.ToolSpecification.
Variable backend_save :
  Backend -> string -> ToolExec.ToolSpecification -> Backend.
Variable validate_spec : ToolExec.ToolSpecification -> Raises unit.

(** The backend is a store: it gives back what was saved under an id,
    and saving under one id leaves the others as they were. *)
Hypothesis get_after_save :
  forall b tool_id tool_spec,
    backend_get (backend_save b tool_id tool_spec) tool_id = Some tool_spec.
Hypothesis get_after_save_other :
  forall b tool_id other tool_spec,
    tool_id <> other ->
    backend_get (backend_save b tool_id tool_spec) other
    = backend_get b other.

Local Abbreviation register :=
  (Registry.register_tool Backend backend_get backend_save validate_spec).
Local Abbreviation lookup_tool := (Registry.get_tool Backend backend_get).
Local Abbreviation is_coherent := (Registry.coherent Backend backend_get).

(** X18. A tool that was registered is found: after a successful
    [register_tool], [get_tool] with the id of the specification returns
    that specification and leaves the registry as it is. *)
Theorem registered_tool_is_found (tool_spec : ToolExec.ToolSpecification)
    (self self' : Registry.ToolRegistry Backend) :
  register tool_spec self = (inr tt, self') ->
  lookup_tool (ToolExec.spec_id tool_spec) self' = (ret tool_spec, self').
Proof.
  unfold Registry.register_tool.
  destruct (validate_spec tool_spec); [discriminate |].
  destruct (backend_get _ _); [discriminate |].
  intros [= <-]. unfold Registry.get_tool. cbn [Registry.cache].
  rewrite lookup_insert_eq. reflexivity.
Qed.

(** X19. An id is registered once: after a successful [register_tool],
    registering a valid specification with the same id raises
    [ToolRegistryError] and leaves the registry, backend and cache, as it
    was. *)
Theorem duplicate_registration_is_refused
    (tool_spec again : ToolExec.ToolSpecification)
    (self self' : Registry.ToolRegistry Backend) :
  register tool_spec self = (inr tt, self') ->
  ToolExec.spec_id again = ToolExec.spec_id tool_spec ->
  validate_spec again = ret tt ->
  register again self'
  = (inl (Registry.ToolRegistryError
            ("Tool " ++ ToolExec.spec_id tool_spec
             ++ " already registered")%string), self').
Proof.
  unfold Registry.register_tool at 1.
  destruct (validate_spec tool_spec); [discriminate |].
  destruct (backend_get _ _); [discriminate |].
  intros [= <-] Hid Hvalid. unfold Registry.register_tool.
  rewrite Hvalid. unfold ret at 1. cbn [Registry.backend].
  rewrite Hid, get_after_save. reflexivity.
Qed.

(** X20. The cache stays coherent with the backend: when every cached
    specification is the one the backend holds under its id, this is
    still so after [register_tool] and after [get_tool], whatever their
    outcome. *)
Theorem registry_operations_keep_coherence
    (self : Registry.ToolRegistry Backend) :
  is_coherent self ->
  (forall tool_spec, is_coherent (snd (register tool_spec self)))
  /\ (forall tool_id, is_coherent (snd (lookup_tool tool_id self))).
Proof.
  intros Hcoherent. split.
  - intros tool_spec. unfold Registry.register_tool.
    destruct (validate_spec tool_spec); [exact Hcoherent |].
    destruct (backend_get _ _); [exact Hcoherent |].
    cbn [snd]. intros tool_id cached. cbn [Registry.cache Registry.backend].
    destruct (decide (ToolExec.spec_id tool_spec = tool_id)) as [<- | Hne].
    + rewrite lookup_insert_eq, get_after_save. auto.
    + rewrite lookup_insert_ne by exact Hne.
      rewrite get_after_save_other by exact Hne. apply Hcoherent.
  - intros tool_id. unfold Registry.get_tool.
    destruct (Registry.cache self !! tool_id); [exact Hcoherent |].
    destruct (backend_get (Registry.backend self) tool_id) as [found |] eqn:Hget;
      [| exact Hcoherent].
    cbn [snd]. intros other cached. cbn [Registry.cache Registry.backend].
    destruct (decide (tool_id = other)) as [<- | Hne].
    + rewrite lookup_insert_eq. intros [= <-]. exact Hget.
    + rewrite lookup_insert_ne by exact Hne. apply Hcoherent.
Qed.

(** X21. On a coherent registry the cache is transparent: [get_tool]
    returns the specification the backend holds under the id, and raises
    [ToolNotFoundError] exactly when the backend holds none; in that case
    the registry is left as it was. *)
Theorem get_tool_answers_as_backend (tool_id : string)
    (self : Registry.ToolRegistry Backend) :
  is_coherent self ->
  fst (lookup_tool tool_id self)
  = match backend_get (Registry.backend self) tool_id with
    | Some tool_spec => ret tool_spec
    | None =>
        raise (ToolNotFoundError ("Tool " ++ tool_id ++ " not found")%string)
    end
  /\ (backend_get (Registry.backend self) tool_id = None ->
      snd (lookup_tool tool_id self) = self).
Proof.
  intros Hcoherent. unfold Registry.get_tool.
  destruct (Registry.cache self !! tool_id) as [cached |] eqn:Hcache.
  - rewrite (Hcoherent _ _ Hcache). split; [reflexivity | discriminate].
  - destruct (backend_get (Registry.backend self) tool_id);
      split; try reflexivity. discriminate.
Qed.

End ToolRegistryFacts.

(** ** Tool discovery *)

(** In a list sorted by a relation, every element of a front part is
    related to every element of the rest. *)
Lemma strongly_sorted_app_inv {A : Type} (R : A -> A -> Prop)
    (front back : list A) :
  StronglySorted R (front ++ back) ->
  forall a b, In a front -> In b back -> R a b.
Proof.
  induction front as [| x front IH]; cbn; intros Hsorted a b Ha Hb;
    [contradiction |].
  apply StronglySorted_inv in Hsorted as [Hrest Hx].
  destruct Ha as [<- | Ha].
  - rewrite List.Forall_forall in Hx. apply Hx. apply in_or_app. auto.
  - apply (IH Hrest a b Ha Hb).
Qed.

Section ToolDiscoveryFacts.

Variable get_success_rate : string -> string -> Q.

Local Abbreviation rate_of := (Discovery.rate get_success_rate).
Local Abbreviation insert_tool := (Discovery.insert_by_rate get_success_rate).
Local Abbreviation rank := (Discovery.rank_by_success_rate get_success_rate).

(** [before kind a b]: [a] may stand before [b] in a ranking for the
    task type [kind], its success rate being at least that of [b]. *)
Local Abbreviation before kind :=
  (fun a b : ToolExec.ToolSpecification =>
     (rate_of kind b <= rate_of kind a)%Q).

Lemma insert_by_rate_permutation (kind : string)
    (t : ToolExec.ToolSpecification) (sorted : list ToolExec.ToolSpecification) :
  Permutation (insert_tool kind t sorted) (t :: sorted).
Proof.
  induction sorted as [| u rest IH]; cbn; [reflexivity |].
  destruct (Qle_bool _ _); [reflexivity |].
  rewrite IH. apply perm_swap.
Qed.

Lemma insert_by_rate_sorted (kind : string)
    (t : ToolExec.ToolSpecification) (sorted : list ToolExec.ToolSpecification) :
  StronglySorted (before kind) sorted ->
  StronglySorted (before kind) (insert_tool kind t sorted).
Proof.
  induction 1 as [| u rest Hrest IH Hu]; cbn.
  - constructor; constructor.
  - destruct (Qle_bool (rate_of kind u) (rate_of kind t)) eqn:Hle.
    + apply Qle_bool_iff in Hle. constructor.
      * constructor; assumption.
      * constructor; [exact Hle |].
        rewrite List.Forall_forall in *. intros r Hr.
        apply Qle_trans with (rate_of kind u); [apply Hu; exact Hr | exact Hle].
    + constructor; [exact IH |].
      assert (Hlt : (rate_of kind t < rate_of kind u)%Q).
      { apply Qnot_le_lt. intros Hcontra.
        apply Qle_bool_iff in Hcontra. rewrite Hcontra in Hle.
        discriminate Hle. }
      rewrite List.Forall_forall in *. intros r Hr.
      apply (Permutation_in _ (insert_by_rate_permutation kind t rest)) in Hr.
      destruct Hr as [<- | Hr]; [apply Qlt_le_weak; exact Hlt | apply Hu; exact Hr].
Qed.

(** The ranking is a sorted rearrangement of the tools. *)
Lemma rank_sorted_permutation
    (tools : list ToolExec.ToolSpecification) (kind : string) :
  Permutation (rank tools kind) tools
  /\ StronglySorted (before kind) (rank tools kind).
Proof.
  unfold Discovery.rank_by_success_rate.
  induction tools as [| t tools [IHperm IHsorted]]; cbn.
  - split; [reflexivity | constructor].
  - split.
    + rewrite insert_by_rate_permutation. constructor. exact IHperm.
    + apply insert_by_rate_sorted. exact IHsorted.
Qed.

(** X22. [_rank_by_success_rate] returns the tools it was given, each as
    often as it was given, in an order in which no tool stands before a
    tool of higher success rate for the task type: of two tools of the
    ranking, the one that stands first has a success rate at least that
    of the other. *)
Theorem ranking_is_sorted_permutation
    (tools : list ToolExec.ToolSpecification) (kind : string) :
  Permutation (rank tools kind) tools
  /\ length (rank tools kind) = length tools
  /\ forall front back first second,
       rank tools kind = front ++ back ->
       In first front -> In second back ->
       (rate_of kind second <= rate_of kind first)%Q.
Proof.
  destruct (rank_sorted_permutation tools kind) as [Hperm Hsorted].
  split; [exact Hperm |]. split; [apply Permutation_length; exact Hperm |].
  intros front back first second Hsplit Hfirst Hsecond.
  rewrite Hsplit in Hsorted.
  exact (strongly_sorted_app_inv _ _ _ Hsorted first second Hfirst Hsecond).
Qed.

End ToolDiscoveryFacts.

(** ** MCP client *)

Section MCPClientFacts.

Variable prepare_credentials : string -> string.
Variable generate_trace_id : string.
Variable transport_send : MCP.MCPRequest -> Z -> MCP.MCPRaises MCP.MCPResponse.
Variable validate_response : MCP.MCPResponse -> MCP.MCPRaises unit.

Local Abbreviation client_call :=
  (MCP.call_tool prepare_credentials generate_trace_id transport_send
     validate_response).

(** X24. [call_tool] sends one request, of version 1.0, with the
    endpoint, the parameters, the prepared credentials, a trace id and
    the timeout, and turns what comes of it into its outcome. A response
    the validation accepts gives a result of status SUCCESS with the data
    and the metadata of that response. An [MCPTimeoutError] of the
    transport or of the validation gives the result of status TIMEOUT
    with the error text [MCP call timed out]; an [MCPServerError] of
    either gives the result of status SERVER_ERROR whose error is the
    text of that exception; both are without data. An exception of
    another class leaves the call as it is. So [call_tool] raises neither
    [MCPTimeoutError] nor [MCPServerError]. *)
Theorem call_tool_maps_outcomes (endpoint : string)
    (parameters : Parameters) (timeout : Z) (credentials : string) :
  let request :=
    {| MCP.version := "1.0";
       MCP.tool_endpoint := endpoint;
       MCP.req_parameters := parameters;
       MCP.req_credentials := prepare_credentials credentials;
       MCP.trace_id := generate_trace_id;
       MCP.req_timeout := timeout |} in
  let call :=
    MCP.call_tool prepare_credentials generate_trace_id transport_send
      validate_response endpoint parameters timeout credentials in
  let raised (e : MCP.MCPException) :=
    transport_send request timeout = inl e
    \/ exists response,
         transport_send request timeout = inr response
         /\ validate_response response = inl e in
  (forall response,
     transport_send request timeout = inr response ->
     validate_response response = inr tt ->
     call = inr {| MCP.res_status := "SUCCESS";
                   MCP.res_data := MCP.resp_data response;
                   MCP.res_error := None;
                   MCP.res_metadata := Some (MCP.resp_metadata response) |})
  /\ (raised MCP.MCPTimeoutError ->
      call = inr {| MCP.res_status := "TIMEOUT";
                    MCP.res_data := None;
                    MCP.res_error := Some "MCP call timed out";
                    MCP.res_metadata := None |})
  /\ (forall msg,
        raised (MCP.MCPServerError msg) ->
        call = inr {| MCP.res_status := "SERVER_ERROR";
                      MCP.res_data := None;
                      MCP.res_error := Some msg;
                      MCP.res_metadata := None |})
  /\ (forall other,
        raised (MCP.OtherError other) -> call = inl (MCP.OtherError other))
  /\ call <> inl MCP.MCPTimeoutError
  /\ (forall msg, call <> inl (MCP.MCPServerError msg)).
Proof.
  intros request call raised. subst call raised.
  unfold MCP.call_tool, MCP.send_and_validate. fold request.
  repeat split.
  - intros response Hsend Hvalid. rewrite Hsend, Hvalid. reflexivity.
  - intros [Hsend | (response & Hsend & Hvalid)].
    + rewrite Hsend. reflexivity.
    + rewrite Hsend, Hvalid. reflexivity.
  - intros msg [Hsend | (response & Hsend & Hvalid)].
    + rewrite Hsend. reflexivity.
    + rewrite Hsend, Hvalid. reflexivity.
  - intros other [Hsend | (response & Hsend & Hvalid)].
    + rewrite Hsend. reflexivity.
    + rewrite Hsend, Hvalid. reflexivity.
  - destruct (transport_send request timeout) as [[| msg | other] | response];
      try discriminate.
    destruct (validate_response response) as [[| msg | other] | []];
      discriminate.
  - intros msg'.
    destruct (transport_send request timeout) as [[| msg | other] | response];
      try discriminate.
    destruct (validate_response response) as [[| msg | other] | []];
      discriminate.
Qed.

End MCPClientFacts.

(** ** MCP server *)

Section MCPServerFacts.

Variable User : Type.
Variable MCPContext : Type.
Variable Result : Type.
Variable RateLimiter : Type.
Variable verify : string -> MCPContext -> MCP.AuthenticationResult User.
Variable check_authorization : User -> string -> bool.
Variable validate_input : Parameters -> MCP.ValidationResult.
Variable validate_output : Result -> MCP.ValidationResult.
Variable rate_check : RateLimiter -> User -> bool * RateLimiter.
Variable fresh_audit_id : list (MCP.ServerCall Result) -> string.
Variable execute : Parameters -> MCPContext -> MCP.MCPRaises Result.
Variable unauthorized : MCP.MCPRaises MCP.MCPResponse.
Variable forbidden : MCP.MCPRaises MCP.MCPResponse.
Variable bad_request : list string -> MCP.MCPRaises MCP.MCPResponse.
Variable rate_limited : MCP.MCPRaises MCP.MCPResponse.
Variable success : Result -> MCP.MCPRaises MCP.MCPResponse.

Local Abbreviation server :=
  (MCP.handle_request User MCPContext Result RateLimiter verify
     check_authorization validate_input validate_output rate_check
     fresh_audit_id execute unauthorized forbidden bad_request rate_limited
     success).

(** The four checks of the pipeline, all passed. *)
Local Abbreviation cleared request context st :=
  (MCP.authenticated (verify (MCP.req_credentials request) context) = true
   /\ check_authorization
        (MCP.auth_user (verify (MCP.req_credentials request) context))
        (MCP.tool_endpoint request) = true
   /\ MCP.valid (validate_input (MCP.req_parameters request)) = true
   /\ fst (rate_check (MCP.rate_limiter st)
             (MCP.auth_user (verify (MCP.req_credentials request) context)))
      = false).

(** A request that passes the four checks is audited, run and
    validated. *)
Lemma handle_cleared_request (request : MCP.MCPRequest)
    (context : MCPContext) (st : MCP.ServerState Result RateLimiter) :
  cleared request context st ->
  server request context st
  = let limiter :=
      snd (rate_check (MCP.rate_limiter st)
             (MCP.auth_user (verify (MCP.req_credentials request) context))) in
    let audit_id :=
      fresh_audit_id (MCP.calls st) in
    let begun :=
      MCP.calls st
      ++ [MCP.AuditBegin audit_id request;
          MCP.ToolLogicRun (MCP.req_parameters request)] in
    match MCP.execute_and_validate MCPContext Result validate_output execute
            request context with
    | inr result =>
        let audited := begun ++ [MCP.AuditSuccess audit_id result] in
        match success result with
        | inr response =>
            (inr response,
             {| MCP.rate_limiter := limiter; MCP.calls := audited |})
        | inl e =>
            (inl e,
             {| MCP.rate_limiter := limiter;
                MCP.calls :=
                  audited
                  ++ [MCP.AuditFailure audit_id
                        (MCP.str_of_mcp_exception e)] |})
        end
    | inl e =>
        (inl e,
         {| MCP.rate_limiter := limiter;
            MCP.calls :=
              begun
              ++ [MCP.AuditFailure audit_id (MCP.str_of_mcp_exception e)] |})
    end.
Proof.
  intros (Hauthn & Hauthz & Hvalid & Hrate). unfold MCP.handle_request.
  rewrite Hauthn, Hauthz, Hvalid. cbn [negb].
  destruct (rate_check _ _) as [exceeded limiter]. cbn in Hrate.
  subst exceeded. reflexivity.
Qed.


(** X26. An output the validation rejects is not handed out: when the
    request passes the four checks and the tool logic returns a result
    whose validation fails, [handle_request] raises [MCPServerError] and
    the audit is completed as a failure with the text
    [Invalid output generated]. *)
Theorem invalid_output_is_refused (request : MCP.MCPRequest)
    (context : MCPContext) (st : MCP.ServerState Result RateLimiter)
    (result : Result) :
  cleared request context st ->
  execute (MCP.req_parameters request) context = inr result ->
  MCP.valid (validate_output result) = false ->
  fst (server request context st)
  = inl (MCP.MCPServerError "Invalid output generated")
  /\ MCP.calls (snd (server request context st))
     = MCP.calls st
       ++ [MCP.AuditBegin
             (fresh_audit_id (MCP.calls st)) request;
           MCP.ToolLogicRun (MCP.req_parameters request);
           MCP.AuditFailure
             (fresh_audit_id (MCP.calls st))
             "Invalid output generated"].
Proof.
  intros Hcleared Hrun Hout.
  rewrite handle_cleared_request by exact Hcleared. cbn zeta.
  unfold MCP.execute_and_validate. rewrite Hrun, Hout.
  cbn [negb fst snd MCP.calls]. rewrite <- app_assoc. split; reflexivity.
Qed.

End MCPServerFacts.

(** ** EHR server *)

Section EHRServerFacts.

Variable User : Type.
Variable MCPContext : Type.
Variable EHRData : Type.
Variable PatientData : Type.
Variable RateLimiter : Type.
Variable verify : string -> MCPContext -> MCP.AuthenticationResult User.
Variable check_authorization : User -> string -> bool.
Variable validate_input : Parameters -> MCP.ValidationResult.
Variable validate_output : PatientData -> MCP.ValidationResult.
Variable rate_check : RateLimiter -> User -> bool * RateLimiter.
Variable fresh_audit_id : list (MCP.ServerCall PatientData) -> string.
Variable unauthorized : MCP.MCPRaises MCP.MCPResponse.
Variable forbidden : MCP.MCPRaises MCP.MCPResponse.
Variable bad_request : list string -> MCP.MCPRaises MCP.MCPResponse.
Variable rate_limited : MCP.MCPRaises MCP.MCPResponse.
Variable success : PatientData -> MCP.MCPRaises MCP.MCPResponse.
Variable get_patient : string -> string -> MCP.MCPRaises EHRData.
Variable transform_patient_data : EHRData -> PatientData.
Variable get_lab_results :
  Parameters -> MCPContext -> MCP.MCPRaises PatientData.

Local Abbreviation ehr_logic :=
  (MCP.ehr_execute MCPContext EHRData PatientData get_patient
     transform_patient_data get_lab_results).
Local Abbreviation ehr_server :=
  (MCP.handle_request User MCPContext PatientData RateLimiter verify
     check_authorization validate_input validate_output rate_check
     fresh_audit_id ehr_logic unauthorized forbidden bad_request
     rate_limited success).

(** A request that passed the four checks and whose tool logic raises:
    the exception leaves [handle_request] after a failure audit. *)
Lemma raising_logic_is_audited (request : MCP.MCPRequest)
    (context : MCPContext) (st : MCP.ServerState PatientData RateLimiter)
    (e : MCP.MCPException) :
  MCP.authenticated (verify (MCP.req_credentials request) context) = true ->
  check_authorization
    (MCP.auth_user (verify (MCP.req_credentials request) context))
    (MCP.tool_endpoint request) = true ->
  MCP.valid (validate_input (MCP.req_parameters request)) = true ->
  fst (rate_check (MCP.rate_limiter st)
         (MCP.auth_user (verify (MCP.req_credentials request) context)))
  = false ->
  ehr_logic (MCP.req_parameters request) context = inl e ->
  fst (ehr_server request context st) = inl e
  /\ MCP.calls (snd (ehr_server request context st))
     = MCP.calls st
       ++ [MCP.AuditBegin (fresh_audit_id (MCP.calls st)) request;
           MCP.ToolLogicRun (MCP.req_parameters request);
           MCP.AuditFailure (fresh_audit_id (MCP.calls st))
             (MCP.str_of_mcp_exception e)].
Proof.
  intros Hauthn Hauthz Hvalid Hrate Hraise.
  rewrite handle_cleared_request by auto. cbn zeta.
  unfold MCP.execute_and_validate. rewrite Hraise.
  cbn [fst snd MCP.calls]. rewrite <- app_assoc. split; reflexivity.
Qed.

(** X27. The EHR server audits the requests it cannot serve. For a
    request that passed the four checks: when its parameters name
    neither [fetch_patient_data] nor [get_lab_results] as operation, or
    no operation at all, [handle_request] raises [MCPServerError] with
    the text [Unknown operation: ] followed by the operation ([None] for
    a missing one); when they ask for [fetch_patient_data] without a
    [patient_id], it raises [KeyError]. In both cases the audit is
    completed as a failure with the text of the exception, and the EHR
    is not asked: the outcome is the same for every EHR client. *)
Theorem ehr_request_errors_are_audited (request : MCP.MCPRequest)
    (context : MCPContext) (st : MCP.ServerState PatientData RateLimiter) :
  MCP.authenticated (verify (MCP.req_credentials request) context) = true ->
  check_authorization
    (MCP.auth_user (verify (MCP.req_credentials request) context))
    (MCP.tool_endpoint request) = true ->
  MCP.valid (validate_input (MCP.req_parameters request)) = true ->
  fst (rate_check (MCP.rate_limiter st)
         (MCP.auth_user (verify (MCP.req_credentials request) context)))
  = false ->
  let operation := MCP.req_parameters request !! "operation" in
  let failure e :=
    (inl e : MCP.MCPRaises MCP.MCPResponse,
     {| MCP.rate_limiter :=
          snd (rate_check (MCP.rate_limiter st)
                 (MCP.auth_user
                    (verify (MCP.req_credentials request) context)));
        MCP.calls :=
          MCP.calls st
          ++ [MCP.AuditBegin (fresh_audit_id (MCP.calls st)) request;
              MCP.ToolLogicRun (MCP.req_parameters request);
              MCP.AuditFailure (fresh_audit_id (MCP.calls st))
                (MCP.str_of_mcp_exception e)] |}) in
  (operation <> Some "fetch_patient_data" ->
   operation <> Some "get_lab_results" ->
   ehr_server request context st
   = failure (MCP.MCPServerError
                ("Unknown operation: " ++ MCP.str_of_operation operation)))
  /\ (operation = Some "fetch_patient_data" ->
      MCP.req_parameters request !! "patient_id" = None ->
      ehr_server request context st
      = failure (MCP.OtherError (BuiltinError "KeyError" "'patient_id'"))).
Proof.
  intros Hauthn Hauthz Hvalid Hrate operation failure.
  subst operation failure. split.
  - intros Hfetch Hlab.
    rewrite handle_cleared_request by auto. cbn zeta.
    unfold MCP.execute_and_validate, MCP.ehr_execute.
    rewrite (bool_decide_eq_false_2 _ Hfetch),
      (bool_decide_eq_false_2 _ Hlab).
    rewrite <- app_assoc. reflexivity.
  - intros Hfetch Hmissing.
    rewrite handle_cleared_request by auto. cbn zeta.
    unfold MCP.execute_and_validate, MCP.ehr_execute.
    rewrite (bool_decide_eq_true_2 _ Hfetch).
    unfold MCP.fetch_patient_data. rewrite Hmissing.
    rewrite <- app_assoc. reflexivity.
Qed.

End EHRServerFacts.

(** ** Approval policy and approval conversation *)

Section ApprovalFacts.

Variable Action : Type.
Variable Verification : Type.
Variable assess_impact : Action -> string.
Variable assess_reversibility : Action -> string.
Variable assess_data_sensitivity : Action -> string.
Variable Confidence : Type.
Variable str_confidence : Confidence -> string.
Variable generate_summary : Approval.ActionProposal Confidence -> string.
Variable now : Z.

Local Abbreviation classify :=
  (Tier.classify_action Action Verification
     assess_impact assess_reversibility assess_data_sensitivity).
Local Abbreviation ask :=
  (Approval.request_approval Confidence str_confidence generate_summary now).

(** X28. Whether approval is requested for an action is decided by its
    impact and its reversibility alone: the policy asks for approval of
    the tier the engine computes unless the action is of LOW impact and
    FULL reversibility, or of MEDIUM impact and FULL or PARTIAL
    reversibility. The data sensitivity has no say, PHI included. *)
Theorem approval_follows_impact_and_reversibility (action : Action)
    (verification : Verification) :
  Approval.should_request_approval (classify action verification)
  = negb
      ((String.eqb (assess_impact action) "LOW"
        && String.eqb (assess_reversibility action) "FULL")
       || (String.eqb (assess_impact action) "MEDIUM"
           && (String.eqb (assess_reversibility action) "FULL"
               || String.eqb (assess_reversibility action) "PARTIAL"))).
Proof.
  unfold Tier.classify_action, Tier.determine_tier.
  destruct (String.eqb (assess_impact action) "LOW"
            && String.eqb (assess_reversibility action) "FULL");
    [reflexivity |].
  destruct (String.eqb (assess_impact action) "MEDIUM"
            && (String.eqb (assess_reversibility action) "FULL"
                || String.eqb (assess_reversibility action) "PARTIAL"));
    [reflexivity |].
  destruct (String.eqb (assess_impact action) "HIGH"
            || String.eqb (assess_data_sensitivity action) "PHI");
    reflexivity.
Qed.

(** X29. [request_approval] returns the decision of the first answer
    that is not EXPLAIN: after any number of EXPLAIN answers, each of
    which shows the detailed explanation once, the outcome is the one of
    a conversation that starts with that answer, and the answers after it
    are not read. *)
Theorem request_approval_skips_explanations
    (explains later : list Approval.UserResponse)
    (final : Approval.UserResponse)
    (proposal : Approval.ActionProposal Confidence)
    (requirements : Approval.ApprovalRequirements) :
  Forall (fun answer => Approval.ur_action answer = "EXPLAIN") explains ->
  Approval.ur_action final <> "EXPLAIN" ->
  ask (explains ++ final :: later) proposal requirements
  = (fst (ask [final] proposal requirements), length explains)
  /\ exists value, fst (ask [final] proposal requirements) = Some value.
Proof.
  intros Hexplains Hfinal.
  assert (Hone : forall rest,
             ask (final :: rest) proposal requirements
             = (fst (ask [final] proposal requirements), 0)
             /\ exists value,
                  fst (ask [final] proposal requirements) = Some value).
  { intros rest. cbn [Approval.request_approval].
    destruct (String.eqb (Approval.ur_action final) "APPROVE");
      [split; [reflexivity | eauto] |].
    destruct (String.eqb (Approval.ur_action final) "DENY");
      [split; [reflexivity | eauto] |].
    destruct (String.eqb (Approval.ur_action final) "MODIFY");
      [split; [reflexivity | eauto] |].
    destruct (String.eqb_spec (Approval.ur_action final) "EXPLAIN");
      [contradiction |].
    split; [reflexivity | eauto]. }
  split; [| apply (Hone [])].
  induction Hexplains as [| answer explains Hanswer _ IH].
  - apply Hone.
  - rewrite <- app_comm_cons. cbn [Approval.request_approval length].
    rewrite Hanswer. cbn. rewrite IH. reflexivity.
Qed.

End ApprovalFacts.

(** ** The further properties on the instances *)

(** A plan aborted at its second step: status FAILED, two step
    results. *)
Lemma execute_plan_result_shape_witness :
  exists result context',
    Demo.execute_plan
      (Demo.plan_of [("lookup", false); ("flaky", true); ("lookup", false)] [])
      []
    = ret (result, context')
    /\ er_status result = "FAILED"
    /\ 1 <= length (er_steps result) <= 3.
Proof.
  eexists. eexists. split; [reflexivity |].
  destruct
    (execute_plan_result_shape Demo.Context string Demo.Output
       Demo.add_step_result Demo.get_tool Demo.tool_execute Demo.sequential
       Demo.aggregate_outputs
       (Demo.plan_of [("lookup", false); ("flaky", true); ("lookup", false)] [])
       [] _ _ eq_refl)
    as [(Hstatus & _) | (Hstatus & _ & Hlength & _)].
  - discriminate Hstatus.
  - split; [exact Hstatus | exact Hlength].
Defined.

(** The context after the aborted plan holds its two step results. *)
Lemma execute_plan_records_results_witness :
  exists result context',
    Demo.execute_plan
      (Demo.plan_of [("lookup", false); ("flaky", true); ("lookup", false)] [])
      []
    = ret (result, context')
    /\ context' = fold_left Demo.add_step_result (er_steps result) [].
Proof.
  eexists. eexists. split; [reflexivity |].
  eapply (execute_plan_records_results Demo.Context string Demo.Output
           Demo.add_step_result Demo.get_tool Demo.tool_execute
           Demo.sequential Demo.aggregate_outputs
           (Demo.plan_of
              [("lookup", false); ("flaky", true); ("lookup", false)] [])
           []).
  reflexivity.
Defined.

(** A failing step that is not critical does not fail the plan. *)
Lemma plan_without_critical_step_succeeds_witness :
  exists result context',
    Demo.execute_plan
      (Demo.plan_of [("flaky", false); ("lookup", false)] []) []
    = ret (result, context')
    /\ er_status result = "SUCCESS"
    /\ length (er_steps result) = 2.
Proof.
  eexists. eexists. split; [reflexivity |].
  eapply (plan_without_critical_step_succeeds Demo.Context string Demo.Output
           Demo.add_step_result Demo.get_tool Demo.tool_execute
           Demo.sequential Demo.aggregate_outputs
           (Demo.plan_of [("flaky", false); ("lookup", false)] []) []).
  - repeat constructor.
  - reflexivity.
Defined.

(** The [KeyError] of the second step leaves the plan. *)
Lemma exception_in_plan_propagates_witness :
  Demo.execute_plan
    (Demo.plan_of [("lookup", false); ("broken", false); ("lookup", false)] [])
    []
  = raise (BuiltinError "KeyError" "id").
Proof.
  eapply (exception_in_plan_propagates Demo.Context string Demo.Output
            Demo.add_step_result Demo.get_tool Demo.tool_execute
            Demo.sequential Demo.aggregate_outputs
            (Demo.plan_of
               [("lookup", false); ("broken", false); ("lookup", false)] [])
            [Services.step "lookup" false] [Services.step "lookup" false]
            (Services.step "broken" false) []);
    reflexivity.
Defined.

(** A first iteration that goes on and a second one that aborts its plan:
    the call of [AgentResponse] for the escalation raises. *)
Lemma escalation_raises_type_error_witness :
  exists msg,
    Services.execute_task ([("flaky", false)], [("flaky", true)])
    = raise (BuiltinError "TypeError" msg).
Proof.
  unfold Services.execute_task, execute_task.
  change (seq 0 max_iterations) with ([0] ++ 1 :: seq 2 8).
  eapply escalation_raises_type_error.
  - eapply continues_cons;
      [reflexivity | reflexivity | reflexivity | apply continues_nil].
  - reflexivity.
  - reflexivity.
  - reflexivity.
Defined.

(** A first iteration that goes on and a second one whose tool raises a
    [KeyError]: no response. *)
Lemma executor_exception_leaves_loop_witness :
  Services.execute_task ([("flaky", false)], [("broken", false)])
  = raise (BuiltinError "KeyError" "id").
Proof.
  unfold Services.execute_task, execute_task.
  change (seq 0 max_iterations) with ([0] ++ 1 :: seq 2 8).
  eapply executor_exception_leaves_loop.
  - eapply continues_cons;
      [reflexivity | reflexivity | reflexivity | apply continues_nil].
  - reflexivity.
Defined.

(** Allocating and releasing 500 tokens on a fresh manager. *)
Lemma release_undoes_allocate_witness :
  Budget.release (Budget.allocate Budget.init "dynamic" 500) "dynamic" 500
  = Budget.init.
Proof.
  apply (release_undoes_allocate Budget.init "dynamic" 500 0).
  cbn. lia.
Defined.

(** One token for a category the fresh manager does not know. *)
Lemma unknown_category_is_over_allocation_witness :
  Budget.status (Budget.check_budget Budget.init "scratch" 1)
  = "OVER_ALLOCATION".
Proof.
  apply (unknown_category_is_over_allocation Budget.init "scratch" 1).
  - reflexivity.
  - lia.
Defined.

(** A first write of 50000 tokens to the working memory. *)
Lemma approved_write_stays_within_ceiling_witness :
  (Budget.used (Budget.allocate Budget.init "working_memory" 50000)
   <= 160000)%Z.
Proof.
  apply (approved_write_stays_within_ceiling Budget.init "working_memory"
           50000).
  - reflexivity.
  - reflexivity.
Defined.

(** The compaction of a memory with one error gives the same result for
    the targets 10000 and 1. *)
Lemma compaction_result_shape_witness :
  exists result,
    Demo.compact Services.memory_with_error 10000 = ret result
    /\ Demo.compact Services.memory_with_error 1 = ret result.
Proof.
  eexists. split; [reflexivity |].
  unfold Demo.compact.
  refine (proj2 (proj2 (proj2 (proj2
            (compaction_result_shape _ _ _ _ _ _ _ _ _ _ 10000 1 _ _))))).
  reflexivity.
Defined.

(** An authorized call whose result is cached. *)
Lemma cache_hit_skips_tool_witness :
  fst (Demo.tool_executor_execute (Demo.fetch_spec false) ∅ "alice"
         Demo.warm_state)
  = ret Demo.cached_fetch.
Proof.
  unfold Demo.tool_executor_execute.
  erewrite cache_hit_skips_tool;
    [reflexivity | reflexivity | intros H; discriminate H | reflexivity
    | reflexivity].
Defined.

(** A call whose MCP client cannot reach the tool returns a FAILED
    result. *)
Lemma failed_call_is_reported_not_cached_witness :
  fst (Services.failing_executor (Demo.fetch_spec false) ∅ "alice"
         Services.cold_state)
  = ret {| tr_status := "FAILED"; tr_data := None;
           tr_error := Some "connection refused";
           tr_tool_id := "fetch"; tr_duration := None |}.
Proof.
  unfold Services.failing_executor.
  edestruct
    (failed_call_is_reported_not_cached string string
       Demo.check_authorization
       (fun _ _ _ => {| ToolExec.granted := true |})
       (fun params _ => ret params)
       (fun tool_spec _ => ToolExec.spec_id tool_spec)
       (fun _ _ _ _ => raise (MCPError "connection refused"))
       (fun mcp_result tool_spec =>
          ret {| tr_status := "SUCCESS"; tr_data := Some mcp_result;
                 tr_error := None;
                 tr_tool_id := ToolExec.spec_id tool_spec;
                 tr_duration := None |})
       (Demo.fetch_spec false) ∅ ∅ "alice" Services.cold_state
       (MCPError "connection refused"))
    as (Hresult & _);
    [ reflexivity | intros H; discriminate H | reflexivity | reflexivity
    | left; reflexivity | ].
  rewrite Hresult. reflexivity.
Defined.

(** The tool registered in an empty registry is found. *)
Lemma registered_tool_is_found_witness :
  exists registry,
    Services.register_tool (Demo.fetch_spec false) Services.empty_registry
    = (inr tt, registry)
    /\ Services.get_tool "fetch" registry
       = (ret (Demo.fetch_spec false), registry).
Proof.
  eexists. split; [reflexivity |].
  apply (registered_tool_is_found Services.Backend Services.backend_get
           Services.backend_save (fun _ => ret tt)
           (Demo.fetch_spec false) Services.empty_registry).
  reflexivity.
Defined.

(** A second specification with the id ["fetch"] is refused. *)
Lemma duplicate_registration_is_refused_witness :
  exists registry,
    Services.register_tool (Demo.fetch_spec false) Services.empty_registry
    = (inr tt, registry)
    /\ Services.register_tool (Demo.fetch_spec true) registry
       = (inl (Registry.ToolRegistryError "Tool fetch already registered"),
          registry).
Proof.
  eexists. split; [reflexivity |].
  apply (duplicate_registration_is_refused Services.Backend
           Services.backend_get Services.backend_save (fun _ => ret tt)
           (fun b tool_id tool_spec => lookup_insert_eq b tool_id tool_spec)
           (Demo.fetch_spec false) (Demo.fetch_spec true)
           Services.empty_registry);
    reflexivity.
Defined.

(** The registry that holds ["fetch"] is coherent, and stays so when a
    second tool is registered. *)
Lemma registry_operations_keep_coherence_witness :
  Registry.coherent Services.Backend Services.backend_get
    (snd (Services.register_tool
            {| ToolExec.spec_id := "store";
               ToolExec.mcp_endpoint := "mcp://store";
               ToolExec.parameter_schema := "{}";
               ToolExec.requires_consent := false;
               ToolExec.sla_timeout := 1000;
               ToolExec.cacheable := false;
               ToolExec.cache_ttl := 0 |}
            Services.fetch_registry)).
Proof.
  apply (registry_operations_keep_coherence Services.Backend
           Services.backend_get Services.backend_save (fun _ => ret tt)
           (fun b tool_id tool_spec => lookup_insert_eq b tool_id tool_spec)
           (fun b tool_id other tool_spec Hne =>
              lookup_insert_ne b tool_id other tool_spec Hne)
           Services.fetch_registry).
  intros tool_id tool_spec Hcached. exact Hcached.
Defined.

(** A tool the registry does not hold is not found. *)
Lemma get_tool_answers_as_backend_witness :
  fst (Services.get_tool "missing" Services.fetch_registry)
  = raise (ToolNotFoundError "Tool missing not found").
Proof.
  refine (proj1 (get_tool_answers_as_backend Services.Backend
                   Services.backend_get "missing" Services.fetch_registry _)).
  intros tool_id tool_spec Hcached. exact Hcached.
Defined.

(** The EHR server of the instance returns an empty text for lab
    results: the output is refused. *)
Lemma invalid_output_is_refused_witness :
  fst (Services.ehr_server
         (Services.ehr_request {[ "operation" := "get_lab_results" ]}) tt
         Services.fresh_server)
  = inl (MCP.MCPServerError "Invalid output generated").
Proof.
  unfold Services.ehr_server.
  eapply invalid_output_is_refused.
  - repeat split.
  - reflexivity.
  - reflexivity.
Defined.

(** A request without an operation. *)
Lemma ehr_request_errors_are_audited_witness :
  fst (Services.ehr_server (Services.ehr_request ∅) tt Services.fresh_server)
  = inl (MCP.MCPServerError "Unknown operation: None").
Proof.
  unfold Services.ehr_server.
  match goal with
  | |- fst ?run = _ => eassert (Hrun : run = (_, _))
  end.
  { refine (proj1 (ehr_request_errors_are_audited string unit string string
                     nat _ _ _ _ _ _ _ _ _ _ _ _ _ _
                     (Services.ehr_request ∅) tt Services.fresh_server
                     _ _ _ _) _ _).
    - reflexivity.
    - reflexivity.
    - reflexivity.
    - reflexivity.
    - intros H. vm_compute in H. discriminate H.
    - intros H. vm_compute in H. discriminate H. }
  rewrite Hrun. reflexivity.
Defined.

(** Two requests for an explanation, then a denial; the approval that
    follows is not read. *)
Lemma request_approval_skips_explanations_witness :
  Services.request_approval
    [Services.answer "EXPLAIN"; Services.answer "EXPLAIN";
     Services.answer "DENY"; Services.answer "APPROVE"]
  = (fst (Services.request_approval [Services.answer "DENY"]), 2).
Proof.
  unfold Services.request_approval.
  apply (request_approval_skips_explanations Z (fun _ => "92")
           (fun _ => "send the contract") 0%Z
           [Services.answer "EXPLAIN"; Services.answer "EXPLAIN"]
           [Services.answer "APPROVE"] (Services.answer "DENY")
           Services.proposal Services.tier_3_requirements).
  - repeat constructor.
  - intros H. discriminate H.
Defined.
